(** * WebAuthn login flow (lib/auth/webauthn/login.go)

    A shallow embedding of [LoginFlow.Begin] and [LoginFlow.Finish] together
    with the helpers of login.go, and the properties of the login flow that
    the design document states about them.

    Go objects reached through pointers ([*types.MFADevice]) live in a heap
    indexed by locations, so that the in-place update of a device done by
    [setCounterAndTimestamps] is visible to every holder of the pointer.
    Storage, the assertion codec and the verifier are collaborators: the
    identity is an interface ([LoginIdentity], a type class here) and the
    functions of other files and libraries are fields of [Collab]. *)

From Stdlib Require Import Strings.Byte Strings.Ascii Strings.String NArith.
From stdpp Require Import base option list strings gmap fin_maps.

Local Open Scope string_scope.

(** ** Errors (github.com/gravitational/trace) *)

Module trace.

  (** The kinds of error the flow creates or receives.  [Opaque] stands for
      an error that is not a trace error (one of an external library). *)
Inductive error : Type :=
  | BadParameter (msg : string)
  | NotFound (msg : string)
  | Opaque (msg : string).

  (** [trace.Wrap] attaches a stack trace; kind and message are kept. *)
Definition Wrap (e : error) : error := e.

Definition IsNotFound (e : error) : bool :=
    match e with NotFound _ => true | _ => false end.

Definition IsBadParameter (e : error) : bool :=
    match e with BadParameter _ => true | _ => false end.

End trace.

Export trace.

(** A Go result [(T, error)]. *)
Inductive result (A : Type) : Type :=
| Ok (a : A)
| Err (e : error).
Arguments Ok {A} a.
Arguments Err {A} e.

(** ** Bytes *)

Abbreviation bytes := (list byte).

(** [bytes.Equal]: same length and same bytes (nil and empty are equal). *)
Fixpoint bytes_Equal (a b : bytes) : bool :=
  match a, b with
  | [], [] => true
  | x :: a', y :: b' => Byte.eqb x y && bytes_Equal a' b'
  | _, _ => false
  end.

(** ** encoding/base64, [RawURLEncoding.EncodeToString] *)

Module base64.

Definition encodeURL : list ascii :=
    list_ascii_of_string
      "ABCDEFGHIJKLMNOPQRSTUVWXYZabcdefghijklmnopqrstuvwxyz0123456789-_".

  (** The character of a 6-bit value. *)
Definition sextet (n : N) : ascii :=
    nth (N.to_nat (N.land n 63)) encodeURL "A"%char.

Definition b2n (b : byte) : N := Byte.to_N b.

  (** Three bytes give four characters; a rest of one byte gives two and a
      rest of two bytes gives three, with no padding (the Raw encodings). *)
Fixpoint EncodeToString (src : bytes) : string :=
    match src with
    | a :: b :: c :: rest =>
        let v := N.lor (N.shiftl (b2n a) 16) (N.lor (N.shiftl (b2n b) 8) (b2n c)) in
        String (sextet (N.shiftr v 18))
          (String (sextet (N.shiftr v 12))
             (String (sextet (N.shiftr v 6))
                (String (sextet v) (EncodeToString rest))))
    | [a; b] =>
        let v := N.lor (N.shiftl (b2n a) 16) (N.shiftl (b2n b) 8) in
        String (sextet (N.shiftr v 18))
          (String (sextet (N.shiftr v 12))
             (String (sextet (N.shiftr v 6)) EmptyString))
    | [a] =>
        let v := N.shiftl (b2n a) 16 in
        String (sextet (N.shiftr v 18))
          (String (sextet (N.shiftr v 12)) EmptyString)
    | [] => EmptyString
    end.

End base64.

(** [fmt]'s [%q] on a string without characters to escape (the base64 URL
    alphabet has none): the string between double quotes. *)
Definition fmt_q (s : string) : string :=
  let dq := String (ascii_of_nat 34) EmptyString in
  dq ++ s ++ dq.

Example base64_foobar :
  base64.EncodeToString
    [Byte.x66; Byte.x6f; Byte.x6f; Byte.x62; Byte.x61] = "Zm9vYmE".
Proof. reflexivity. Qed.

Example base64_high_bits :
  base64.EncodeToString [Byte.xfb; Byte.xff] = "-_8".
Proof. reflexivity. Qed.

(** ** Data model *)

(** A [*types.MFADevice]: a location of the heap of devices. *)
Definition loc := positive.

(** api/types: devices and the authentication preferences the flow reads. *)
Module types.

Record TOTPDevice := { Key : string }.

Record U2FDevice := {
    KeyHandle : bytes;
    PubKey : bytes;
    Counter : N
  }.

Record WebauthnDevice := {
    CredentialId : bytes;
    PublicKeyCbor : bytes;
    Aaguid : bytes;
    SignatureCounter : N
  }.

  (** The [Device] oneof.  login.go names the U2F and the Webauthn variants;
      [MFADevice_Totp] is a variant its [default] branches receive. *)
Inductive isMFADevice_Device :=
  | MFADevice_Totp (Totp : TOTPDevice)
  | MFADevice_U2F (U2F : U2FDevice)
  | MFADevice_Webauthn (Webauthn : WebauthnDevice).

Record MFADevice := {
    Name : string;
    LastUsed : Z;
    Device : isMFADevice_Device
  }.

Definition GetName (d : MFADevice) : string := Name d.

  (** [GetU2F] is nil unless the device is a U2F device. *)
Definition GetU2F (d : MFADevice) : option U2FDevice :=
    match Device d with
    | MFADevice_U2F u => Some u
    | _ => None
    end.

Record U2F := { AppID : string; Facets : list string }.

Record Webauthn := {
    RPID : string;
    Disabled : bool
  }.

Record WebauthnLocalAuth := { UserID : bytes }.

End types.

(** api/types/webauthn: the stored form of the session data. *)
Module wantypes.

Record SessionData := {
    Challenge : bytes;
    UserId : bytes;
    AllowCredentials : list bytes
  }.

End wantypes.

(** github.com/duo-labs/webauthn/protocol: what the flow reads and builds. *)
Module protocol.

  (** [map[string]interface{}]; the flow stores strings in it. *)
Abbreviation AuthenticationExtensions := (gmap string string).

Record CredentialDescriptor := {
    Type_ : string;
    CredentialID : bytes
  }.

Record PublicKeyCredentialRequestOptions := {
    Challenge : bytes;
    RelyingPartyID : string;
    AllowedCredentials : list CredentialDescriptor;
    Extensions : AuthenticationExtensions
  }.

Record CredentialAssertion := { Response : PublicKeyCredentialRequestOptions }.

Record CollectedClientData := {
    cdType : string;
    cdChallenge : string;
    Origin : string
  }.

Record ParsedAssertionResponse := {
    CollectedClientData_ : CollectedClientData;
    AuthenticatorData : bytes;
    Signature : bytes;
    UserHandle : bytes
  }.

Record ParsedCredentialAssertionData := {
    RawID : bytes;
    pResponse : ParsedAssertionResponse
  }.

End protocol.

(** github.com/duo-labs/webauthn/webauthn. *)
Module wan.

Record Authenticator := {
    AAGUID : bytes;
    SignCount : N;
    CloneWarning : bool
  }.

Record Credential := {
    ID : bytes;
    PublicKey : bytes;
    Authenticator_ : Authenticator
  }.

Record SessionData := {
    Challenge : string;
    UserID : bytes;
    AllowedCredentialIDs : list bytes
  }.

  (** The configured object: what [newWebAuthn] was asked to bind to. *)
Record WebAuthn := {
    RPID : string;
    RPOrigin : string
  }.

Inductive LoginOption :=
  | WithAssertionExtensions (extensions : protocol.AuthenticationExtensions).

End wan.

(** The key of the App ID extension (webauthn-2, section 10.1). *)
Definition AppIDExtension : string := "appid".

(** The messages of this package that [Finish] receives. *)
Record AuthenticationExtensionsClientOutputs := { outAppID : bool }.

Record AuthenticatorAssertionResponse := {
  ClientDataJSON : bytes;
  rAuthenticatorData : bytes;
  rSignature : bytes;
  rUserHandle : bytes
}.

Record CredentialAssertionResponse := {
  rRawID : bytes;
  Extensions : option AuthenticationExtensionsClientOutputs;
  AssertionResponse : AuthenticatorAssertionResponse
}.

(** [*CredentialAssertion] is [protocol.CredentialAssertion] under another
    name (the conversion at the end of [Begin]). *)
Abbreviation CredentialAssertion := protocol.CredentialAssertion.

(** The user of the webauthn library (user.go): name, user handle and the
    credentials of the devices. *)
Record webUser := {
  user_name : string;
  webID : bytes;
  credentials : list wan.Credential
}.

Definition deviceToCredential (credentialIDOnly : bool) (d : types.MFADevice)
  : option wan.Credential :=
  match types.Device d with
  | types.MFADevice_U2F u =>
      Some (if credentialIDOnly
            then wan.Build_Credential (types.KeyHandle u) [] (wan.Build_Authenticator [] 0 false)
            else wan.Build_Credential (types.KeyHandle u) (types.PubKey u)
                   (wan.Build_Authenticator [] (types.Counter u) false))
  | types.MFADevice_Webauthn w =>
      Some (if credentialIDOnly
            then wan.Build_Credential (types.CredentialId w) [] (wan.Build_Authenticator [] 0 false)
            else wan.Build_Credential (types.CredentialId w) (types.PublicKeyCbor w)
                   (wan.Build_Authenticator (types.Aaguid w) (types.SignatureCounter w) false))
  | _ => None
  end.

(** Modelled from the spec: [newWebUser] is in user.go, which is not among
    the sources.  Section 4.1 step 4 has the challenge list the credential
    identifiers of the user's existing devices, and section 4.2 step 7 hands
    the verifier the matched device as a one-element device set: the user
    carries one credential per U2F or Webauthn device, only its identifier
    when [credentialIDOnly] is set. *)
Definition newWebUser (user : string) (webID : bytes) (credentialIDOnly : bool)
    (devices : list types.MFADevice) : webUser :=
  {| user_name := user;
     webID := webID;
     credentials := omap (deviceToCredential credentialIDOnly) devices |}.

(** loginSessionID is used as the per-user session identifier.  A fixed
    identifier means, in essence, that only one concurrent login is allowed. *)
Definition loginSessionID : string := "login".

(** ** The identity interface *)

Abbreviation heap := (loc → types.MFADevice).

(** What a method of the identity can read and write: its own state and the
    devices behind the pointers it is given or hands out. *)
Abbreviation store I := (I * heap)%type.

(** [LoginIdentity]: the subset of Identity methods used by [LoginFlow].
    [GetWebauthnLocalAuth] is the method of the embedded [userIDStorage]
    that [Finish] calls.  A method that returns only an [error] returns
    [None] for nil. *)
Class LoginIdentity (I : Type) := {
  GetWebauthnLocalAuth :
    string → store I → result types.WebauthnLocalAuth * store I;
  GetMFADevices :
    string → bool → store I → result (list loc) * store I;
  UpsertMFADevice :
    string → loc → store I → option error * store I;
  UpsertWebauthnSessionData :
    string → string → wantypes.SessionData → store I → option error * store I;
  GetWebauthnSessionData :
    string → string → store I → result wantypes.SessionData * store I;
  DeleteWebauthnSessionData :
    string → string → store I → option error * store I
}.

(** [loginWithDevices] embeds a [LoginIdentity] and holds a fixed slice of
    devices. *)
Record loginWithDevices (I : Type) := {
  LoginIdentity_ : I;
  devices : list loc
}.
Arguments LoginIdentity_ {I}.
Arguments devices {I}.

(** WithDevices returns a LoginIdentity backed by a fixed set of devices.
    The supplied devices are returned in all GetMFADevices calls. *)
Definition WithDevices {I} (identity : I) (devs : list loc) : loginWithDevices I :=
  {| LoginIdentity_ := identity; devices := devs |}.

(** A method promoted from the embedded identity: it runs on the embedded
    identity and leaves the slice of devices alone. *)
Definition promoted {I A} (m : store I → A * store I)
  : store (loginWithDevices I) → A * store (loginWithDevices I) :=
  fun s =>
    let '(a, (i, h)) := m (LoginIdentity_ s.1, s.2) in
    (a, (WithDevices i (devices s.1), h)).

#[global] Instance loginWithDevices_LoginIdentity {I} `{LoginIdentity I}
  : LoginIdentity (loginWithDevices I) := {
  GetWebauthnLocalAuth user := promoted (GetWebauthnLocalAuth user);
  GetMFADevices user withSecrets := fun s => (Ok (devices s.1), s);
  UpsertMFADevice user d := promoted (UpsertMFADevice user d);
  UpsertWebauthnSessionData user sessionID sd :=
    promoted (UpsertWebauthnSessionData user sessionID sd);
  GetWebauthnSessionData user sessionID :=
    promoted (GetWebauthnSessionData user sessionID);
  DeleteWebauthnSessionData user sessionID :=
    promoted (DeleteWebauthnSessionData user sessionID)
}.

(** ** Effects: state, errors and the calls made *)

Inductive Level := DebugLevel | WarnLevel.

(** The three log lines of login.go. *)
Inductive LogMsg :=
| OriginValidationFailed (err : error)
| CloneWarningDetected (user : string) (device : string)
| FailedToDeleteSessionData (user : string).

(** What a call of the flow does to its surroundings, in order: the calls
    to the identity with their results, the two calls to the webauthn
    library, the writes through a device pointer and the log lines. *)
Inductive event :=
| EvGetMFADevices (user : string) (withSecrets : bool) (r : result (list loc))
| EvGetOrCreateUserWebauthnID (user : string) (r : result bytes)
| EvGetWebauthnLocalAuth (user : string) (r : result types.WebauthnLocalAuth)
| EvUpsertMFADevice (user : string) (dev : loc) (d : types.MFADevice) (r : option error)
| EvUpsertWebauthnSessionData (user sessionID : string) (sd : wantypes.SessionData)
    (r : option error)
| EvGetWebauthnSessionData (user sessionID : string) (r : result wantypes.SessionData)
| EvDeleteWebauthnSessionData (user sessionID : string) (r : option error)
| EvBeginLogin (web : wan.WebAuthn) (u : webUser) (opts : list wan.LoginOption)
    (r : result (CredentialAssertion * wan.SessionData))
| EvValidateLogin (web : wan.WebAuthn) (u : webUser) (sd : wan.SessionData)
    (p : protocol.ParsedCredentialAssertionData) (r : result wan.Credential)
| EvStoreDevice (dev : loc) (d : types.MFADevice)
| EvLog (lvl : Level) (msg : LogMsg).

(** The surroundings of a call: the identity, the devices behind pointers,
    the clock read by [time.Now] and the state of the random source the
    library draws challenges from. *)
Record world (I : Type) := World {
  ident : I;
  mem : heap;
  clock : Z;
  rng : N
}.
Arguments World {I}.
Arguments ident {I}.
Arguments mem {I}.
Arguments clock {I}.
Arguments rng {I}.

(** A computation returns a value or an error, the world it leaves and the
    events it produced, oldest first.  An error does not undo effects. *)
Definition M (I A : Type) : Type := world I → result A * world I * list event.

Definition ret {I A} (a : A) : M I A := fun w => (Ok a, w, []).

Definition fail {I A} (e : error) : M I A := fun w => (Err e, w, []).

Definition bind {I A B} (m : M I A) (k : A → M I B) : M I B :=
  fun w =>
    match m w with
    | (Ok a, w1, t1) =>
        match k a w1 with
        | (r, w2, t2) => (r, w2, (t1 ++ t2)%list)
        end
    | (Err e, w1, t1) => (Err e, w1, t1)
    end.

Declare Scope flow_scope.
Delimit Scope flow_scope with flow.
Notation "x <- c ;; k" := (bind c (fun x => k))
  (at level 100, c at next level, right associativity) : flow_scope.
Notation "c ;;; k" := (bind c (fun _ => k))
  (at level 100, right associativity) : flow_scope.
Local Open Scope flow_scope.

Definition emit {I} (ev : event) : M I () := fun w => (Ok (), w, [ev]).

Definition log {I} (lvl : Level) (msg : LogMsg) : M I () := emit (EvLog lvl msg).

(** [if err != nil { return nil, trace.Wrap(err) }] after a call. *)
Definition check {I A} (m : M I (result A)) : M I A :=
  r <- m ;;
  match r with
  | Ok a => ret a
  | Err e => fail (Wrap e)
  end.

Definition check_err {I} (m : M I (option error)) : M I () :=
  r <- m ;;
  match r with
  | None => ret ()
  | Some e => fail (Wrap e)
  end.

(** A pure call that returns [(T, error)]. *)
Definition pure {I A} (r : result A) : M I (result A) := ret r.

(** A call to the identity: it runs on the identity and the heap, and is
    recorded with its result. *)
Definition call {I A} (m : store I → A * store I) (ev : A → event) : M I A :=
  fun w =>
    let '(a, (i, h)) := m (ident w, mem w) in
    (Ok a, World i h (clock w) (rng w), [ev a]).

Definition deref {I} (l : loc) : M I types.MFADevice :=
  fun w => (Ok (mem w l), w, []).

Definition derefs {I} (ls : list loc) : M I (list types.MFADevice) :=
  fun w => (Ok (mem w <$> ls), w, []).

(** The heap after a write through the pointer [l]. *)
Definition heap_store (h : heap) (l : loc) (d : types.MFADevice) : heap :=
  fun l' => if Pos.eqb l' l then d else h l'.

(** A write through a device pointer. *)
Definition store_device {I} (l : loc) (d : types.MFADevice) : M I () :=
  fun w => (Ok (), World (ident w) (heap_store (mem w) l d) (clock w) (rng w),
            [EvStoreDevice l d]).

(** [time.Now]. *)
Definition time_Now {I} : M I Z := fun w => (Ok (clock w), w, []).

(** ** Collaborators that are not in login.go

    Functions of other files of the package ([validateOrigin],
    [newWebAuthn], [getOrCreateUserWebauthnID], [sessionToPB],
    [sessionFromPB]) and of libraries ([json.Marshal],
    [protocol.ParseCredentialRequestResponseBody], [BeginLogin],
    [ValidateLogin]).  [BeginLogin] draws its challenge from the random
    source, whose state it is given and returns. *)
Record Collab (I : Type) := {
  json_Marshal : CredentialAssertionResponse → result bytes;
  ParseCredentialRequestResponseBody :
    bytes → result protocol.ParsedCredentialAssertionData;
  validateOrigin : string → string → option error;
  newWebAuthn : types.Webauthn → string → string → result wan.WebAuthn;
  getOrCreateUserWebauthnID : string → store I → result bytes * store I;
  BeginLogin :
    wan.WebAuthn → webUser → list wan.LoginOption → N →
    result (CredentialAssertion * wan.SessionData) * N;
  ValidateLogin :
    wan.WebAuthn → webUser → wan.SessionData →
    protocol.ParsedCredentialAssertionData → result wan.Credential;
  sessionToPB : wan.SessionData → result wantypes.SessionData;
  sessionFromPB : wantypes.SessionData → wan.SessionData
}.
Arguments json_Marshal {I}.
Arguments ParseCredentialRequestResponseBody {I}.
Arguments validateOrigin {I}.
Arguments newWebAuthn {I}.
Arguments getOrCreateUserWebauthnID {I}.
Arguments BeginLogin {I}.
Arguments ValidateLogin {I}.
Arguments sessionToPB {I}.
Arguments sessionFromPB {I}.

(** LoginFlow represents the WebAuthn login procedure.  The identity it
    points to is the [ident] of the world. *)
Record LoginFlow := {
  U2F : option types.U2F;
  Webauthn : types.Webauthn
}.

(** ** login.go *)

Section Login.

Context {I : Type} `{LoginIdentity I} (C : Collab I).

Definition Identity_GetMFADevices (user : string) (withSecrets : bool)
  : M I (result (list loc)) :=
  call (GetMFADevices user withSecrets) (EvGetMFADevices user withSecrets).

Definition Identity_GetWebauthnLocalAuth (user : string)
  : M I (result types.WebauthnLocalAuth) :=
  call (GetWebauthnLocalAuth user) (EvGetWebauthnLocalAuth user).

Definition Identity_UpsertMFADevice (user : string) (dev : loc) : M I (option error) :=
  d <- deref dev ;;
  call (UpsertMFADevice user dev) (EvUpsertMFADevice user dev d).

Definition Identity_UpsertWebauthnSessionData (user sessionID : string)
    (sd : wantypes.SessionData) : M I (option error) :=
  call (UpsertWebauthnSessionData user sessionID sd)
    (EvUpsertWebauthnSessionData user sessionID sd).

Definition Identity_GetWebauthnSessionData (user sessionID : string)
  : M I (result wantypes.SessionData) :=
  call (GetWebauthnSessionData user sessionID)
    (EvGetWebauthnSessionData user sessionID).

Definition Identity_DeleteWebauthnSessionData (user sessionID : string)
  : M I (option error) :=
  call (DeleteWebauthnSessionData user sessionID)
    (EvDeleteWebauthnSessionData user sessionID).

Definition call_getOrCreateUserWebauthnID (user : string) : M I (result bytes) :=
  call (getOrCreateUserWebauthnID C user) (EvGetOrCreateUserWebauthnID user).

Definition web_BeginLogin (web : wan.WebAuthn) (u : webUser)
    (opts : list wan.LoginOption)
  : M I (result (CredentialAssertion * wan.SessionData)) :=
  fun w =>
    let '(r, g) := BeginLogin C web u opts (rng w) in
    (Ok r, World (ident w) (mem w) (clock w) g, [EvBeginLogin web u opts r]).

Definition web_ValidateLogin (web : wan.WebAuthn) (u : webUser)
    (sd : wan.SessionData) (p : protocol.ParsedCredentialAssertionData)
  : M I (result wan.Credential) :=
  let r := ValidateLogin C web u sd p in
  emit (EvValidateLogin web u sd p r) ;;; ret r.

(** The options [Begin] hands to [BeginLogin]. *)
Definition loginOptions (f : LoginFlow) : list wan.LoginOption :=
  match U2F f with
  | Some u2f =>
      if String.eqb (types.AppID u2f) ""
      then []
      else [wan.WithAssertionExtensions {[ AppIDExtension := types.AppID u2f ]}]
  | None => []
  end.

(** Begin is the first step of the LoginFlow. *)
Definition Begin (f : LoginFlow) (user : string) : M I CredentialAssertion :=
  if types.Disabled (Webauthn f) then fail (BadParameter "webauthn disabled")
  else if String.eqb user "" then fail (BadParameter "user required")
  else
    devices <- check (Identity_GetMFADevices user false) ;;
    let opts := loginOptions f in
    webID <- check (call_getOrCreateUserWebauthnID user) ;;
    devs <- derefs devices ;;
    let u := newWebUser user webID true devs in
    web <- check (pure (newWebAuthn C (Webauthn f) (types.RPID (Webauthn f)) "")) ;;
    created <- check (web_BeginLogin web u opts) ;;
    let '(assertion, sessionData) := created in
    sessionDataPB <- check (pure (sessionToPB C sessionData)) ;;
    check_err (Identity_UpsertWebauthnSessionData user loginSessionID sessionDataPB) ;;;
    ret assertion.

(** The extensions are not passed on to the library: the response is
    marshalled without them (and has them back when the call returns). *)
Definition parseCredentialResponse (resp : CredentialAssertionResponse)
  : result protocol.ParsedCredentialAssertionData :=
  let resp' := {| rRawID := rRawID resp;
                  Extensions := None;
                  AssertionResponse := AssertionResponse resp |} in
  match json_Marshal C resp' with
  | Err err => Err (Wrap err)
  | Ok body => ParseCredentialRequestResponseBody C body
  end.

(** The first device of the slice whose key handle (U2F) or credential
    identifier (Webauthn) equals [id]. *)
Fixpoint findDeviceByID (h : heap) (devices : list loc) (id : bytes) : option loc :=
  match devices with
  | [] => None
  | dev :: rest =>
      match types.Device (h dev) with
      | types.MFADevice_U2F d =>
          if bytes_Equal (types.KeyHandle d) id then Some dev
          else findDeviceByID h rest id
      | types.MFADevice_Webauthn d =>
          if bytes_Equal (types.CredentialId d) id then Some dev
          else findDeviceByID h rest id
      | _ => findDeviceByID h rest id
      end
  end.

Definition setCounterAndTimestamps (dev : loc) (credential : wan.Credential)
  : M I (option error) :=
  d <- deref dev ;;
  let count := wan.SignCount (wan.Authenticator_ credential) in
  match types.Device d with
  | types.MFADevice_U2F u =>
      now <- time_Now ;;
      store_device dev
        {| types.Name := types.Name d;
           types.LastUsed := now;
           types.Device :=
             types.MFADevice_U2F
               {| types.KeyHandle := types.KeyHandle u;
                  types.PubKey := types.PubKey u;
                  types.Counter := count |} |} ;;;
      ret None
  | types.MFADevice_Webauthn wd =>
      now <- time_Now ;;
      store_device dev
        {| types.Name := types.Name d;
           types.LastUsed := now;
           types.Device :=
             types.MFADevice_Webauthn
               {| types.CredentialId := types.CredentialId wd;
                  types.PublicKeyCbor := types.PublicKeyCbor wd;
                  types.Aaguid := types.Aaguid wd;
                  types.SignatureCounter := count |} |} ;;;
      ret None
  | _ =>
      (* [%T] of the oneof: its dynamic type, here the TOTP variant. *)
      ret (Some (BadParameter
                   "unexpected device type for webauthn: *types.MFADevice_Totp"))
  end.

(** Finish is the second and last step of the LoginFlow.  It returns the
    MFADevice used to solve the challenge. *)
Definition Finish (f : LoginFlow) (user : string)
    (resp : option CredentialAssertionResponse) : M I loc :=
  if types.Disabled (Webauthn f) then fail (BadParameter "webauthn disabled")
  else if String.eqb user "" then fail (BadParameter "user required")
  else
    match resp with
    | None => fail (BadParameter "credential assertion response required")
    | Some resp =>
        parsedResp <- check (pure (parseCredentialResponse resp)) ;;
        let origin :=
          protocol.Origin
            (protocol.CollectedClientData_ (protocol.pResponse parsedResp)) in
        match validateOrigin C origin (types.RPID (Webauthn f)) with
        | Some err =>
            log DebugLevel (OriginValidationFailed err) ;;;
            fail (Wrap err)
        | None =>
            devices <- check (Identity_GetMFADevices user false) ;;
            found <- (fun w => (Ok (findDeviceByID (mem w) devices
                                      (protocol.RawID parsedResp)), w, [])) ;;
            match found with
            | None =>
                fail (BadParameter
                        ("unknown device credential: " ++
                         fmt_q (base64.EncodeToString (protocol.RawID parsedResp))))
            | Some dev =>
                d <- deref dev ;;
                rpID <-
                  match types.GetU2F d, U2F f with
                  | Some _, None =>
                      fail (BadParameter
                        "U2F device attempted login, but U2F configuration not present")
                  | Some _, Some u2f => ret (types.AppID u2f)
                  | None, _ => ret (types.RPID (Webauthn f))
                  end ;;
                wla <- check (Identity_GetWebauthnLocalAuth user) ;;
                d <- deref dev ;;
                let u := newWebUser user (types.UserID wla) false [d] in
                sessionDataPB <-
                  check (Identity_GetWebauthnSessionData user loginSessionID) ;;
                let sessionData := sessionFromPB C sessionDataPB in
                web <- check (pure (newWebAuthn C (Webauthn f) rpID origin)) ;;
                credential <- check (web_ValidateLogin web u sessionData parsedResp) ;;
                (if wan.CloneWarning (wan.Authenticator_ credential)
                 then d <- deref dev ;;
                      log WarnLevel (CloneWarningDetected user (types.GetName d))
                 else ret ()) ;;;
                check_err (setCounterAndTimestamps dev credential) ;;;
                check_err (Identity_UpsertMFADevice user dev) ;;;
                err <- Identity_DeleteWebauthnSessionData user loginSessionID ;;
                match err with
                | Some _ => log WarnLevel (FailedToDeleteSessionData user)
                | None => ret ()
                end ;;;
                ret dev
            end
        end
    end.

End Login.

(** ** An in-memory identity and simple collaborators

    The flow runs against any [LoginIdentity].  The identity below keeps
    devices, sessions and user handles in finite maps and shares device
    pointers with its callers; its deletion of session data can be set to
    fail, as a backend may.  The collaborators are small stand-ins with the
    contracts of section 6 of the design document.  They serve to run the
    flow on concrete inputs. *)

Module Mem.

Record identity := Identity {
  registry : gmap string (list loc);
  sessions : gmap (string * string) wantypes.SessionData;
  localAuth : gmap string types.WebauthnLocalAuth;
  deleteFails : bool
}.

Definition getLocalAuth (user : string) (s : store identity)
  : result types.WebauthnLocalAuth * store identity :=
  (match localAuth s.1 !! user with
   | Some wla => Ok wla
   | None => Err (NotFound "webauthn local auth not found")
   end, s).

Definition getDevices (user : string) (withSecrets : bool) (s : store identity)
  : result (list loc) * store identity :=
  (Ok (default [] (registry s.1 !! user)), s).

Definition upsertDevice (user : string) (dev : loc) (s : store identity)
  : option error * store identity :=
  let old := default [] (registry s.1 !! user) in
  let new := if bool_decide (dev ∈ old) then old else (old ++ [dev])%list in
  (None,
   (Identity (<[user := new]> (registry s.1)) (sessions s.1) (localAuth s.1)
      (deleteFails s.1), s.2)).

Definition upsertSession (user sessionID : string) (sd : wantypes.SessionData)
    (s : store identity) : option error * store identity :=
  (None,
   (Identity (registry s.1) (<[(user, sessionID) := sd]> (sessions s.1))
      (localAuth s.1) (deleteFails s.1), s.2)).

Definition getSession (user sessionID : string) (s : store identity)
  : result wantypes.SessionData * store identity :=
  (match sessions s.1 !! (user, sessionID) with
   | Some sd => Ok sd
   | None => Err (NotFound "webauthn session data not found")
   end, s).

Definition deleteSession (user sessionID : string) (s : store identity)
  : option error * store identity :=
  if deleteFails s.1 then (Some (Opaque "backend unavailable"), s)
  else
    (None,
     (Identity (registry s.1) (delete (user, sessionID) (sessions s.1))
        (localAuth s.1) (deleteFails s.1), s.2)).

#[global] Instance identity_LoginIdentity : LoginIdentity identity := {
  GetWebauthnLocalAuth := getLocalAuth;
  GetMFADevices := getDevices;
  UpsertMFADevice := upsertDevice;
  UpsertWebauthnSessionData := upsertSession;
  GetWebauthnSessionData := getSession;
  DeleteWebauthnSessionData := deleteSession
}.

(** The body is the length of the raw identifier, the raw identifier and
    the client data. *)
Definition marshal (resp : CredentialAssertionResponse) : result bytes :=
  match Byte.of_N (N.of_nat (length (rRawID resp))) with
  | Some n =>
      Ok (n :: rRawID resp ++ rSignature (AssertionResponse resp)
            ++ rAuthenticatorData (AssertionResponse resp)
            ++ ClientDataJSON (AssertionResponse resp))%list
  | None => Err (Opaque "json: unsupported value")
  end.

(** The bytes before the first zero byte, and the bytes after it. *)
Fixpoint splitZero (b : bytes) : bytes * bytes :=
  match b with
  | [] => ([], [])
  | x :: rest =>
      if Byte.eqb x Byte.x00 then ([], rest)
      else let '(l, r) := splitZero rest in (x :: l, r)
  end.

(** The client data is the challenge, a zero byte and the origin; before it
    come one byte of signature and one byte of authenticator data (the
    signature counter). *)
Definition parse (body : bytes) : result protocol.ParsedCredentialAssertionData :=
  match body with
  | n :: rest =>
      let k := N.to_nat (Byte.to_N n) in
      match drop k rest with
      | sig :: cnt :: client =>
          let '(challenge, origin) := splitZero client in
          Ok {| protocol.RawID := take k rest;
                protocol.pResponse :=
                  {| protocol.CollectedClientData_ :=
                       {| protocol.cdType := "webauthn.get";
                          protocol.cdChallenge := string_of_list_byte challenge;
                          protocol.Origin := string_of_list_byte origin |};
                     protocol.AuthenticatorData := [cnt];
                     protocol.Signature := [sig];
                     protocol.UserHandle := [] |} |}
      | _ => Err (BadParameter "Parse error for Assertion")
      end
  | [] => Err (BadParameter "Parse error for Assertion")
  end.

(** The origin accepted for a relying party is its https origin. *)
Definition originOK (origin rpID : string) : option error :=
  if String.eqb origin ("https://" ++ rpID) then None
  else Some (BadParameter "origin does not match the relying party").

Definition configure (cfg : types.Webauthn) (rpID origin : string)
  : result wan.WebAuthn :=
  Ok {| wan.RPID := rpID; wan.RPOrigin := origin |}.

(** The user handle is created from the user name on first use. *)
Definition getOrCreate (user : string) (s : store identity)
  : result bytes * store identity :=
  match localAuth s.1 !! user with
  | Some wla => (Ok (types.UserID wla), s)
  | None =>
      let id := list_byte_of_string user in
      (Ok id,
       (Identity (registry s.1) (sessions s.1)
          (<[user := types.Build_WebauthnLocalAuth id]> (localAuth s.1))
          (deleteFails s.1), s.2))
  end.

Definition applyOption (o : wan.LoginOption)
    (r : protocol.PublicKeyCredentialRequestOptions)
  : protocol.PublicKeyCredentialRequestOptions :=
  match o with
  | wan.WithAssertionExtensions e =>
      {| protocol.Challenge := protocol.Challenge r;
         protocol.RelyingPartyID := protocol.RelyingPartyID r;
         protocol.AllowedCredentials := protocol.AllowedCredentials r;
         protocol.Extensions := e |}
  end.

(** The challenge drawn from the random source in state [g]. *)
Definition challengeOf (g : N) : bytes :=
  [default Byte.x41 (Byte.of_N (65 + N.modulo g 26))].

(** [build_challenge(relying_party, allowed_credentials, extensions)]: the
    challenge lists the credentials of the user and carries the extensions
    of the options; the session data keeps the challenge. *)
Definition beginLogin (web : wan.WebAuthn) (u : webUser)
    (opts : list wan.LoginOption) (g : N)
  : result (CredentialAssertion * wan.SessionData) * N :=
  let ids := wan.ID <$> credentials u in
  let req :=
    foldr applyOption
      {| protocol.Challenge := challengeOf g;
         protocol.RelyingPartyID := wan.RPID web;
         protocol.AllowedCredentials :=
           (λ c, protocol.Build_CredentialDescriptor "public-key" c) <$> ids;
         protocol.Extensions := ∅ |} opts in
  (Ok (protocol.Build_CredentialAssertion req,
       {| wan.Challenge := string_of_list_byte (challengeOf g);
          wan.UserID := webID u;
          wan.AllowedCredentialIDs := ids |}), (g + 1)%N).

(** The verifier accepts a response for the challenge of the session, by a
    credential of the user, with the signature byte 1; it reports the
    counter of the authenticator data. *)
Definition validateLogin (web : wan.WebAuthn) (u : webUser)
    (sd : wan.SessionData) (p : protocol.ParsedCredentialAssertionData)
  : result wan.Credential :=
  let r := protocol.pResponse p in
  if negb (String.eqb (wan.Challenge sd)
             (protocol.cdChallenge (protocol.CollectedClientData_ r)))
  then Err (Opaque "Challenge value was incorrect")
  else
    match find (λ c, bytes_Equal (wan.ID c) (protocol.RawID p)) (credentials u),
          protocol.Signature r, protocol.AuthenticatorData r with
    | Some c, [sig], [cnt] =>
        if Byte.eqb sig Byte.x01 then
          let n := Byte.to_N cnt in
          Ok {| wan.ID := wan.ID c;
                wan.PublicKey := wan.PublicKey c;
                wan.Authenticator_ :=
                  {| wan.AAGUID := wan.AAGUID (wan.Authenticator_ c);
                     wan.SignCount := n;
                     wan.CloneWarning :=
                       N.leb n (wan.SignCount (wan.Authenticator_ c)) |} |}
        else Err (Opaque "Error validating the assertion signature")
    | _, _, _ => Err (Opaque "Unable to find the credential for the returned credential ID")
    end.

Definition toPB (sd : wan.SessionData) : result wantypes.SessionData :=
  Ok {| wantypes.Challenge := list_byte_of_string (wan.Challenge sd);
        wantypes.UserId := wan.UserID sd;
        wantypes.AllowCredentials := wan.AllowedCredentialIDs sd |}.

Definition fromPB (sd : wantypes.SessionData) : wan.SessionData :=
  {| wan.Challenge := string_of_list_byte (wantypes.Challenge sd);
     wan.UserID := wantypes.UserId sd;
     wan.AllowedCredentialIDs := wantypes.AllowCredentials sd |}.

Definition collab : Collab identity := {|
  json_Marshal := marshal;
  ParseCredentialRequestResponseBody := parse;
  validateOrigin := originOK;
  newWebAuthn := configure;
  getOrCreateUserWebauthnID := getOrCreate;
  BeginLogin := beginLogin;
  ValidateLogin := validateLogin;
  sessionToPB := toPB;
  sessionFromPB := fromPB
|}.

End Mem.

(** ** Notions used in the statements *)

(** The events that change a registered device: the write through the
    device pointer and the call that persists the device. *)
Definition mutates (ev : event) : bool :=
  match ev with
  | EvStoreDevice _ _ | EvUpsertMFADevice _ _ _ _ => true
  | _ => false
  end.

Definition isValidateLogin (ev : event) : bool :=
  match ev with
  | EvValidateLogin _ _ _ _ _ => true
  | _ => false
  end.

Definition isVerified (ev : event) : bool :=
  match ev with
  | EvValidateLogin _ _ _ _ (Ok _) => true
  | _ => false
  end.

Definition isDelete (ev : event) : bool :=
  match ev with
  | EvDeleteWebauthnSessionData _ _ _ => true
  | _ => false
  end.

(** Every mutation of [evs] comes after a successful verification, given
    whether one happened before [evs]. *)
Fixpoint mutations_verified (verified : bool) (evs : list event) : bool :=
  match evs with
  | [] => true
  | ev :: rest =>
      (negb (mutates ev) || verified)
      && mutations_verified (verified || isVerified ev) rest
  end.

(** The identifier a device is matched by: the key handle of a U2F device,
    the credential identifier of a Webauthn device. *)
Definition matches (id : bytes) (d : types.MFADevice) : Prop :=
  match types.Device d with
  | types.MFADevice_U2F u => types.KeyHandle u = id
  | types.MFADevice_Webauthn wd => types.CredentialId wd = id
  | _ => False
  end.

Definition hasU2FDevice (ds : list types.MFADevice) : bool :=
  existsb (λ d, bool_decide (is_Some (types.GetU2F d))) ds.


(** The session data an identity answers with. *)
Definition session_of {I} `{LoginIdentity I} (user sessionID : string) (s : store I)
  : result wantypes.SessionData :=
  (GetWebauthnSessionData user sessionID s).1.

(** What the flow needs of the session storage of an identity: session
    data that was stored is read back, session data that was deleted is
    not found, and reading devices or the user handle leaves the session
    data as it is. *)
Class SessionStoreLaws (I : Type) `{LoginIdentity I} : Prop := {
  get_after_upsert : ∀ user sessionID sd s s',
    UpsertWebauthnSessionData user sessionID sd s = (None, s') →
    session_of user sessionID s' = Ok sd;
  get_after_delete : ∀ user sessionID s s',
    DeleteWebauthnSessionData user sessionID s = (None, s') →
    ∃ e, session_of user sessionID s' = Err e;
  get_devices_keeps_sessions : ∀ user withSecrets s u sessionID,
    session_of u sessionID (GetMFADevices user withSecrets s).2
    = session_of u sessionID s;
  get_local_auth_keeps_sessions : ∀ user s u sessionID,
    session_of u sessionID (GetWebauthnLocalAuth user s).2
    = session_of u sessionID s;
  get_session_keeps_sessions : ∀ user sid s u sessionID,
    session_of u sessionID (GetWebauthnSessionData user sid s).2
    = session_of u sessionID s
}.

(** ** A scenario

    alice has one Webauthn key, bob one U2F key and carol none.  The
    relying party is example.com, with the App ID of its U2F days. *)
Module Scenario.

Definition C1 : bytes := [Byte.x43; Byte.x31].

Definition K1 : bytes := [Byte.x4b; Byte.x31].

Definition aliceKey : types.MFADevice :=
  {| types.Name := "alice-key";
     types.LastUsed := 0;
     types.Device :=
       types.MFADevice_Webauthn
         {| types.CredentialId := C1;
            types.PublicKeyCbor := [Byte.xa5];
            types.Aaguid := [];
            types.SignatureCounter := 4 |} |}.

Definition bobKey : types.MFADevice :=
  {| types.Name := "bob-u2f";
     types.LastUsed := 0;
     types.Device :=
       types.MFADevice_U2F
         {| types.KeyHandle := K1;
            types.PubKey := [Byte.x04];
            types.Counter := 2 |} |}.

Definition heap0 : heap :=
  fun l => if Pos.eqb l 2 then bobKey else aliceKey.

Definition identity0 (deleteFails : bool) : Mem.identity :=
  Mem.Identity {[ "alice" := [1%positive]; "bob" := [2%positive] ]} ∅ ∅ deleteFails.

Definition world0 (deleteFails : bool) : world Mem.identity :=
  World (identity0 deleteFails) heap0 1000 7.

Definition flow : LoginFlow :=
  {| U2F := Some (types.Build_U2F "https://example.com" []);
     Webauthn := types.Build_Webauthn "example.com" false |}.


(** A response by the credential [id] to [challenge], from [origin], with
    the signature byte [sig] and the signature counter [cnt]. *)
Definition response (id challenge : bytes) (origin : string) (sig cnt : byte)
  : CredentialAssertionResponse :=
  {| rRawID := id;
     Extensions := Some {| outAppID := false |};
     AssertionResponse :=
       {| ClientDataJSON :=
            (challenge ++ [Byte.x00] ++ list_byte_of_string origin)%list;
          rAuthenticatorData := [cnt];
          rSignature := [sig];
          rUserHandle := [] |} |}.

Definition parsed (id challenge : bytes) (origin : string) (sig cnt : byte)
  : protocol.ParsedCredentialAssertionData :=
  {| protocol.RawID := id;
     protocol.pResponse :=
       {| protocol.CollectedClientData_ :=
            {| protocol.cdType := "webauthn.get";
               protocol.cdChallenge := string_of_list_byte challenge;
               protocol.Origin := origin |};
          protocol.AuthenticatorData := [cnt];
          protocol.Signature := [sig];
          protocol.UserHandle := [] |} |}.

(** The world a first [Begin] for [user] leaves. *)
Definition begun (f : LoginFlow) (user : string) (deleteFails : bool)
  : world Mem.identity :=
  (Begin Mem.collab f user (world0 deleteFails)).1.2.

(** The challenge of that first [Begin], and of one that follows it. *)
Definition challenge1 : bytes := Mem.challengeOf 7.

Definition challenge2 : bytes := Mem.challengeOf 8.

Definition good : CredentialAssertionResponse :=
  response C1 challenge1 "https://example.com" Byte.x01 Byte.x05.

Definition goodParsed : protocol.ParsedCredentialAssertionData :=
  parsed C1 challenge1 "https://example.com" Byte.x01 Byte.x05.

Definition forged : CredentialAssertionResponse :=
  response C1 challenge1 "https://example.com" Byte.x00 Byte.x05.

Definition evil : CredentialAssertionResponse :=
  response C1 challenge1 "https://evil.example" Byte.x01 Byte.x05.

Definition evilParsed : protocol.ParsedCredentialAssertionData :=
  parsed C1 challenge1 "https://evil.example" Byte.x01 Byte.x05.

Definition unknown : CredentialAssertionResponse :=
  response [Byte.x5a] challenge1 "https://example.com" Byte.x01 Byte.x05.

Definition unknownParsed : protocol.ParsedCredentialAssertionData :=
  parsed [Byte.x5a] challenge1 "https://example.com" Byte.x01 Byte.x05.



End Scenario.

(** ** Further notions *)

(** The signature counter of a device that has one. *)
Definition counterOf (d : types.MFADevice) : option N :=
  match types.Device d with
  | types.MFADevice_U2F u => Some (types.Counter u)
  | types.MFADevice_Webauthn wd => Some (types.SignatureCounter wd)
  | _ => None
  end.

(** A device with its counter and its last-used time put aside: what
    [setCounterAndTimestamps] has to keep. *)
Definition identityOf (d : types.MFADevice)
  : string * option (bytes * bytes * bytes) :=
  (types.Name d,
   match types.Device d with
   | types.MFADevice_U2F u => Some (types.KeyHandle u, types.PubKey u, [])
   | types.MFADevice_Webauthn wd =>
       Some (types.CredentialId wd, types.PublicKeyCbor wd, types.Aaguid wd)
   | _ => None
   end).

(** The event is about [user] only: a call to the identity names that user,
    the fixed session identifier and no secrets. *)
Definition about_user (user : string) (ev : event) : bool :=
  match ev with
  | EvGetMFADevices u withSecrets _ => String.eqb u user && negb withSecrets
  | EvGetOrCreateUserWebauthnID u _ => String.eqb u user
  | EvGetWebauthnLocalAuth u _ => String.eqb u user
  | EvUpsertMFADevice u _ _ _ => String.eqb u user
  | EvUpsertWebauthnSessionData u sid _ _ =>
      String.eqb u user && String.eqb sid loginSessionID
  | EvGetWebauthnSessionData u sid _ =>
      String.eqb u user && String.eqb sid loginSessionID
  | EvDeleteWebauthnSessionData u sid _ =>
      String.eqb u user && String.eqb sid loginSessionID
  | EvBeginLogin _ u _ _ => String.eqb (user_name u) user
  | EvValidateLogin _ u _ _ _ => String.eqb (user_name u) user
  | EvStoreDevice _ _ => true
  | EvLog _ _ => true
  end.

(** The error a call ended with, for the calls whose error ends the flow:
    every call but the deletion of session data. *)
Definition failure_of (ev : event) : option error :=
  match ev with
  | EvGetMFADevices _ _ (Err e) => Some e
  | EvGetOrCreateUserWebauthnID _ (Err e) => Some e
  | EvGetWebauthnLocalAuth _ (Err e) => Some e
  | EvUpsertMFADevice _ _ _ (Some e) => Some e
  | EvUpsertWebauthnSessionData _ _ _ (Some e) => Some e
  | EvGetWebauthnSessionData _ _ (Err e) => Some e
  | EvBeginLogin _ _ _ (Err e) => Some e
  | EvValidateLogin _ _ _ _ (Err e) => Some e
  | _ => None
  end.

(** The events of [Begin]: it reads devices, resolves the user handle,
    asks the library for a challenge and stores session data. *)
Definition isBeginEvent (ev : event) : bool :=
  match ev with
  | EvGetMFADevices _ _ _ | EvGetOrCreateUserWebauthnID _ _
  | EvBeginLogin _ _ _ _ | EvUpsertWebauthnSessionData _ _ _ _ => true
  | _ => false
  end.

(** The events of [Finish]: it never asks for a challenge, creates a user
    handle or stores session data. *)
Definition isFinishEvent (ev : event) : bool :=
  match ev with
  | EvGetOrCreateUserWebauthnID _ _ | EvBeginLogin _ _ _ _
  | EvUpsertWebauthnSessionData _ _ _ _ => false
  | _ => true
  end.

(** The response with other extensions. *)
Definition withExtensions (resp : CredentialAssertionResponse)
    (exts : option AuthenticationExtensionsClientOutputs)
  : CredentialAssertionResponse :=
  {| rRawID := rRawID resp;
     Extensions := exts;
     AssertionResponse := AssertionResponse resp |}.

(** The collaborators of a flow on the identity made by [WithDevices]: the
    user handle is resolved through the methods the wrapper takes from the
    identity it wraps; the others do not touch the identity. *)
Definition withDevicesCollab {I} (C : Collab I) : Collab (loginWithDevices I) :=
  {| json_Marshal := json_Marshal C;
     ParseCredentialRequestResponseBody := ParseCredentialRequestResponseBody C;
     validateOrigin := validateOrigin C;
     newWebAuthn := newWebAuthn C;
     getOrCreateUserWebauthnID :=
       λ user, promoted (getOrCreateUserWebauthnID C user);
     BeginLogin := BeginLogin C;
     ValidateLogin := ValidateLogin C;
     sessionToPB := sessionToPB C;
     sessionFromPB := sessionFromPB C |}.

(** The stand-in collaborators with a [BeginLogin] that refuses a user
    without credentials. *)
Definition strictCollab : Collab Mem.identity :=
  {| json_Marshal := Mem.marshal;
     ParseCredentialRequestResponseBody := Mem.parse;
     validateOrigin := Mem.originOK;
     newWebAuthn := Mem.configure;
     getOrCreateUserWebauthnID := Mem.getOrCreate;
     BeginLogin :=
       λ web u opts g,
         match credentials u with
         | [] => (Err (BadParameter "Found no credentials for user"), g)
         | _ => Mem.beginLogin web u opts g
         end;
     ValidateLogin := Mem.validateLogin;
     sessionToPB := Mem.toPB;
     sessionFromPB := Mem.fromPB |}.

(** More of the scenario. *)
Module Scenario2.

(** A response of alice's key whose counter did not move on. *)
Definition stale : CredentialAssertionResponse :=
  Scenario.response Scenario.C1 Scenario.challenge1 "https://example.com"
    Byte.x01 Byte.x04.

Definition staleParsed : protocol.ParsedCredentialAssertionData :=
  Scenario.parsed Scenario.C1 Scenario.challenge1 "https://example.com"
    Byte.x01 Byte.x04.

Definition web : wan.WebAuthn :=
  {| wan.RPID := "example.com"; wan.RPOrigin := "https://example.com" |}.

Definition alice : webUser :=
  newWebUser "alice" (list_byte_of_string "alice") false [Scenario.aliceKey].

Definition session : wan.SessionData :=
  {| wan.Challenge := string_of_list_byte Scenario.challenge1;
     wan.UserID := list_byte_of_string "alice";
     wan.AllowedCredentialIDs := [Scenario.C1] |}.

Definition staleCredential : wan.Credential :=
  {| wan.ID := Scenario.C1;
     wan.PublicKey := [Byte.xa5];
     wan.Authenticator_ :=
       {| wan.AAGUID := []; wan.SignCount := 4; wan.CloneWarning := true |} |}.

(** A response cut short: nothing after the raw identifier. *)
Definition truncated : CredentialAssertionResponse :=
  {| rRawID := Scenario.C1;
     Extensions := None;
     AssertionResponse :=
       {| ClientDataJSON := [];
          rAuthenticatorData := [];
          rSignature := [];
          rUserHandle := [] |} |}.

(** The world of alice after [Begin], seen through an identity that has
    only the key of bob. *)
Definition wrapped : world (loginWithDevices Mem.identity) :=
  let w := Scenario.begun Scenario.flow "alice" false in
  World (WithDevices (ident w) [2%positive]) (mem w) (clock w) (rng w).

End Scenario2.




(** The identifier a device is listed by. *)
Definition deviceID (d : types.MFADevice) : option bytes :=
  match types.Device d with
  | types.MFADevice_U2F u => Some (types.KeyHandle u)
  | types.MFADevice_Webauthn wd => Some (types.CredentialId wd)
  | _ => None
  end.

(** [post m w Q]: the run of [m] from [w] ends in a result, a world and
    events that satisfy [Q]. *)
Definition post {I A} (m : M I A) (w : world I)
    (Q : result A → world I → list event → Prop) : Prop :=
  Q (m w).1.1 (m w).1.2 (m w).2.

(** ** Proof support *)

Lemma bytes_Equal_eq (a b : bytes) : bytes_Equal a b = true ↔ a = b.
Proof.
  revert b; induction a as [|x a IH]; intros [|y b]; simpl; try (split; congruence).
  rewrite andb_true_iff, IH. split.
  - intros [Hxy ->]. f_equal. by apply Byte.byte_dec_bl.
  - intros [= -> ->]. split; [by apply Byte.byte_dec_lb | done].
Qed.

(** Rules to follow a computation step by step. *)

Lemma post_run {I A} (m : M I A) (w w' : world I) (r : result A)
    (t : list event) (Q : result A → world I → list event → Prop) :
  post m w Q → m w = (r, w', t) → Q r w' t.
Proof. unfold post. intros HQ Hm. by rewrite Hm in HQ. Qed.

Lemma post_ret {I A} (a : A) (w : world I) Q :
  Q (Ok a) w [] → post (ret a) w Q.
Proof. done. Qed.

Lemma post_fail {I A} (e : error) (w : world I)
    (Q : result A → world I → list event → Prop) :
  Q (Err e) w [] → post (fail e) w Q.
Proof. done. Qed.

Lemma post_bind {I A B} (m : M I A) (k : A → M I B) (w : world I) Q :
  post m w (λ r w1 t1,
    match r with
    | Ok a => post (k a) w1 (λ r' w2 t2, Q r' w2 (t1 ++ t2)%list)
    | Err e => Q (Err e) w1 t1
    end) →
  post (bind m k) w Q.
Proof.
  unfold post, bind. destruct (m w) as [[[a|e] w1] t1]; simpl; [|done].
  by destruct (k a w1) as [[r w2] t2].
Qed.

Lemma post_emit {I} (ev : event) (w : world I) Q :
  Q (Ok ()) w [ev] → post (emit ev) w Q.
Proof. done. Qed.

Lemma post_call {I A} (m : store I → A * store I) (ev : A → event)
    (w : world I) Q :
  (∀ a i h, m (ident w, mem w) = (a, (i, h)) →
     Q (Ok a) (World i h (clock w) (rng w)) [ev a]) →
  post (call m ev) w Q.
Proof.
  unfold post, call. intros HQ.
  destruct (m (ident w, mem w)) as [a [i h]] eqn:Hm. simpl. by apply HQ.
Qed.

Lemma post_call_known {I A} (m : store I → A * store I) (ev : A → event)
    (w : world I) Q a i h :
  m (ident w, mem w) = (a, (i, h)) →
  Q (Ok a) (World i h (clock w) (rng w)) [ev a] →
  post (call m ev) w Q.
Proof. unfold post, call. by intros ->. Qed.

Lemma post_deref {I} (l : loc) (w : world I) Q :
  Q (Ok (mem w l)) w [] → post (deref l) w Q.
Proof. done. Qed.

Lemma post_derefs {I} (ls : list loc) (w : world I) Q :
  Q (Ok (mem w <$> ls)) w [] → post (derefs ls) w Q.
Proof. done. Qed.

Lemma post_store_device {I} (l : loc) (d : types.MFADevice) (w : world I) Q :
  Q (Ok ()) (World (ident w) (heap_store (mem w) l d) (clock w) (rng w))
    [EvStoreDevice l d] →
  post (store_device l d) w Q.
Proof. done. Qed.

Lemma post_time_Now {I} (w : world I) Q :
  Q (Ok (clock w)) w [] → post time_Now w Q.
Proof. done. Qed.

Lemma post_BeginLogin {I} `{LoginIdentity I} (C : Collab I) web u opts
    (w : world I) Q :
  (∀ r g, BeginLogin C web u opts (rng w) = (r, g) →
     Q (Ok r) (World (ident w) (mem w) (clock w) g) [EvBeginLogin web u opts r]) →
  post (web_BeginLogin C web u opts) w Q.
Proof.
  unfold post, web_BeginLogin. intros HQ.
  destruct (BeginLogin C web u opts (rng w)) as [r g] eqn:Hb. simpl. by apply HQ.
Qed.

Lemma post_BeginLogin_known {I} `{LoginIdentity I} (C : Collab I) web u opts
    (w : world I) Q r g :
  BeginLogin C web u opts (rng w) = (r, g) →
  Q (Ok r) (World (ident w) (mem w) (clock w) g) [EvBeginLogin web u opts r] →
  post (web_BeginLogin C web u opts) w Q.
Proof. unfold post, web_BeginLogin. by intros ->. Qed.

Lemma post_fun {I A} (g : world I → A) (w : world I) Q :
  Q (Ok (g w)) w [] → post (λ w0, (Ok (g w0), w0, [])) w Q.
Proof. done. Qed.

(** A scrutinee whose value is a hypothesis is rewritten; another one is
    split into its cases. *)
Ltac flow_case x :=
  first [ match goal with Hk : x = _ |- _ => rewrite Hk end
        | destruct x eqn:? ].

(** One step of a computation: the rule of its head, after the definitions
    of login.go that are sequences of calls are unfolded.  The result of a
    call is taken from a hypothesis when there is one. *)
Ltac flow_step :=
  lazymatch goal with
  | |- post (bind _ _) _ _ => apply post_bind
  | |- post (ret _) _ _ => apply post_ret
  | |- post (fail _) _ _ => apply post_fail
  | |- post (emit _) _ _ => apply post_emit
  | |- post (log _ _) _ _ => unfold log; apply post_emit
  | |- post (call ?m _) ?w _ =>
      first [ match goal with
              | Hk : m _ = (_, (_, _)) |- _ =>
                  refine (post_call_known m _ w _ _ _ _ Hk _)
              end
            | apply post_call; intros ? ? ? ? ]
  | |- post (deref _) _ _ => apply post_deref
  | |- post (derefs _) _ _ => apply post_derefs
  | |- post (store_device _ _) _ _ => apply post_store_device
  | |- post time_Now _ _ => apply post_time_Now
  | |- post (web_BeginLogin ?C ?web ?u ?opts) ?w _ =>
      first [ match goal with
              | Hk : BeginLogin C web u opts _ = (_, _) |- _ =>
                  refine (post_BeginLogin_known C web u opts w _ _ _ Hk _)
              end
            | apply post_BeginLogin; intros ? ? ? ]
  | |- post (λ w0, (Ok _, w0, [])) _ _ => apply post_fun
  | |- post (check _) _ _ => unfold check
  | |- post (check_err _) _ _ => unfold check_err
  | |- post (pure _) _ _ => unfold pure
  | |- post (Identity_GetMFADevices _ _) _ _ => unfold Identity_GetMFADevices
  | |- post (Identity_GetWebauthnLocalAuth _) _ _ =>
      unfold Identity_GetWebauthnLocalAuth
  | |- post (Identity_UpsertMFADevice _ _) _ _ => unfold Identity_UpsertMFADevice
  | |- post (Identity_UpsertWebauthnSessionData _ _ _) _ _ =>
      unfold Identity_UpsertWebauthnSessionData
  | |- post (Identity_GetWebauthnSessionData _ _) _ _ =>
      unfold Identity_GetWebauthnSessionData
  | |- post (Identity_DeleteWebauthnSessionData _ _) _ _ =>
      unfold Identity_DeleteWebauthnSessionData
  | |- post (call_getOrCreateUserWebauthnID _ _) _ _ =>
      unfold call_getOrCreateUserWebauthnID
  | |- post (web_ValidateLogin _ _ _ _ _) _ _ => unfold web_ValidateLogin
  | |- post (setCounterAndTimestamps _ _) _ _ => unfold setCounterAndTimestamps
  | |- post (if ?b then _ else _) _ _ => flow_case b
  | |- post (match ?x with _ => _ end) _ _ => flow_case x
  | |- match ?x with Ok _ => _ | Err _ => _ end => flow_case x
  end; cbn beta iota; cbn [ident mem clock rng].

Ltac flow_steps := repeat flow_step.

(** Membership in a list that is written out: one case per element. *)
Ltac in_cases H :=
  repeat (apply elem_of_cons in H as [H | H]; [try discriminate H|]);
  try (apply elem_of_nil in H; destruct H).

(** Membership of an element that occurs in a list that is written out. *)
Ltac in_list :=
  repeat first [ apply list_elem_of_here | apply list_elem_of_further ].

Section Properties.

Context {I : Type} `{LoginIdentity I} (C : Collab I).

(** C3.  When the origin claimed by the parsed response is rejected by
    [validateOrigin] for the configured relying-party identifier, [Finish]
    returns that error, whatever the identity holds and whatever the
    verifier would answer.  The failure is logged (one Debug line), and it
    is the only thing the call does: no device lookup, no session load and
    no verification precede it, and the world is left as it was. *)
Theorem Finish_origin_mismatch (f : LoginFlow) (user : string)
    (resp : CredentialAssertionResponse)
    (p : protocol.ParsedCredentialAssertionData) (err : error) (w : world I) :
  types.Disabled (Webauthn f) = false →
  user ≠ "" →
  parseCredentialResponse C resp = Ok p →
  validateOrigin C
    (protocol.Origin (protocol.CollectedClientData_ (protocol.pResponse p)))
    (types.RPID (Webauthn f)) = Some err →
  Finish C f user (Some resp) w
  = (Err (Wrap err), w, [EvLog DebugLevel (OriginValidationFailed err)]).
Proof.
  intros Hen Hu Hp Ho. unfold Finish. rewrite Hen.
  apply String.eqb_neq in Hu. rewrite Hu.
  unfold check, pure, bind, ret, fail, log, emit. rewrite Hp. simpl.
  rewrite Ho. reflexivity.
Qed.

Lemma mutations_verified_sound (b : bool) (evs : list event) :
  mutations_verified b evs = true →
  ∀ pre ev suf, evs = (pre ++ ev :: suf)%list → mutates ev = true →
    b = true ∨ ∃ v, v ∈ pre ∧ isVerified v = true.
Proof.
  revert b. induction evs as [|e evs IH]; intros b Hc pre ev suf Heq Hm.
  - by destruct pre.
  - simpl in Hc. apply andb_true_iff in Hc as [Hhd Htl].
    destruct pre as [|e' pre]; simplify_eq/=.
    + rewrite Hm in Hhd. simpl in Hhd. by left.
    + destruct (IH _ Htl pre ev suf eq_refl Hm) as [Hb | (v & Hv & Hok)].
      * apply orb_true_iff in Hb as [-> | Hb]; [by left|].
        right. exists e'. split; [left | done].
      * right. exists v. split; [by right | done].
Qed.

(** Every [ValidateLogin] event of [Finish] records what the verifier
    returned. *)
Lemma Finish_events_faithful (f : LoginFlow) (user : string)
    (resp : option CredentialAssertionResponse) (w : world I) :
  post (Finish C f user resp) w (λ _ _ evs,
    ∀ web u sd p r, EvValidateLogin web u sd p r ∈ evs →
      r = ValidateLogin C web u sd p).
Proof.
  unfold Finish. flow_steps; simpl; intros web' u' sd' p' r' Hin;
    in_cases Hin; by simplify_eq.
Qed.

Lemma Finish_mutations_verified (f : LoginFlow) (user : string)
    (resp : option CredentialAssertionResponse) (w : world I) :
  post (Finish C f user resp) w (λ _ _ evs, mutations_verified false evs = true).
Proof. unfold Finish. flow_steps; reflexivity. Qed.

Lemma Finish_error_after_verification (f : LoginFlow) (user : string)
    (resp : option CredentialAssertionResponse) (w : world I) :
  post (Finish C f user resp) w (λ r _ evs,
    ∀ e v, r = Err e → v ∈ evs → isVerified v = true →
      e = BadParameter "unexpected device type for webauthn: *types.MFADevice_Totp"
      ∨ ∃ dev d, EvUpsertMFADevice user dev d (Some e) ∈ evs).
Proof.
  unfold Finish.
  flow_steps; simpl; intros e' v' Hr Hin Hv;
    try discriminate Hr; injection Hr as <-;
    in_cases Hin; subst v'; try discriminate Hv; unfold Wrap;
    first [ by left | right; eexists _, _; in_list ].
Qed.

(** C2.  In every run of [Finish], a write to the matched device (the
    update of counter and last-used time through its pointer) and the call
    [UpsertMFADevice] happen only after [ValidateLogin] has succeeded.  So a
    run without a successful verification, which is every run that ends at
    or before the verifier (disabled, empty user, nil response, parse error,
    origin mismatch, unknown credential, missing U2F configuration, missing
    user handle, missing session data, verification failure), has no such
    event; and an error of a run with a successful verification is the
    error of the device update itself. *)
Theorem Finish_mutates_only_after_verification (f : LoginFlow) (user : string)
    (resp : option CredentialAssertionResponse) (w w' : world I)
    (r : result loc) (evs : list event) :
  Finish C f user resp w = (r, w', evs) →
  (∀ pre ev suf, evs = (pre ++ ev :: suf)%list → mutates ev = true →
     ∃ web u sd p c,
       EvValidateLogin web u sd p (Ok c) ∈ pre ∧
       ValidateLogin C web u sd p = Ok c)
  ∧ ((∀ ev, ev ∈ evs → isVerified ev = false) →
     ∀ ev, ev ∈ evs → mutates ev = false)
  ∧ (∀ e v, r = Err e → v ∈ evs → isVerified v = true →
       e = BadParameter "unexpected device type for webauthn: *types.MFADevice_Totp"
       ∨ ∃ dev d, EvUpsertMFADevice user dev d (Some e) ∈ evs).
Proof.
  intros Hrun.
  pose proof (post_run _ _ _ _ _ _ (Finish_events_faithful f user resp w) Hrun)
    as Hfaith.
  pose proof (post_run _ _ _ _ _ _ (Finish_mutations_verified f user resp w) Hrun)
    as Hchk.
  simpl in Hfaith, Hchk.
  assert (Hord : ∀ pre ev suf, evs = (pre ++ ev :: suf)%list →
            mutates ev = true → ∃ v, v ∈ pre ∧ isVerified v = true).
  { intros pre ev suf Heq Hm.
    by destruct (mutations_verified_sound _ _ Hchk pre ev suf Heq Hm). }
  split; [|split].
  - intros pre ev suf Heq Hm.
    destruct (Hord pre ev suf Heq Hm) as (v & Hv & Hok).
    destruct v as [| | | | | | | |web u sd p [c|]| |]; try discriminate.
    exists web, u, sd, p, c. split; [done|].
    symmetry. apply Hfaith. rewrite Heq. set_solver.
  - intros Hno ev Hin. destruct (mutates ev) eqn:Hm; [|done].
    apply list_elem_of_split in Hin as (pre & suf & ->).
    destruct (Hord pre ev suf eq_refl Hm) as (v & Hv & Hok).
    rewrite Hno in Hok; [done | set_solver].
  - exact (post_run _ _ _ _ _ _ (Finish_error_after_verification f user resp w) Hrun).
Qed.

Lemma findDeviceByID_None (h : heap) (devices : list loc) (id : bytes) :
  findDeviceByID h devices id = None ↔
  ∀ dev, dev ∈ devices → ¬ matches id (h dev).
Proof.
  induction devices as [|dev rest IH]; simpl.
  - split; [|done]. intros _ l Hin. apply elem_of_nil in Hin. destruct Hin.
  - unfold matches at 1.
    destruct (types.Device (h dev)) as [t|u|wd] eqn:Hd.
    + rewrite IH. split.
      * intros Hrest l [->|Hin]%elem_of_cons; [|by apply Hrest].
        unfold matches. rewrite Hd. tauto.
      * intros Hall l Hin. apply Hall. by right.
    + destruct (bytes_Equal (types.KeyHandle u) id) eqn:Heq.
      * apply bytes_Equal_eq in Heq. split; [done|]. intros Hall.
        destruct (Hall dev); [by left|]. unfold matches. by rewrite Hd.
      * rewrite IH. split.
        -- intros Hrest l [->|Hin]%elem_of_cons; [|by apply Hrest].
           unfold matches. rewrite Hd. intros Hk.
           apply bytes_Equal_eq in Hk. congruence.
        -- intros Hall l Hin. apply Hall. by right.
    + destruct (bytes_Equal (types.CredentialId wd) id) eqn:Heq.
      * apply bytes_Equal_eq in Heq. split; [done|]. intros Hall.
        destruct (Hall dev); [by left|]. unfold matches. by rewrite Hd.
      * rewrite IH. split.
        -- intros Hrest l [->|Hin]%elem_of_cons; [|by apply Hrest].
           unfold matches. rewrite Hd. intros Hk.
           apply bytes_Equal_eq in Hk. congruence.
        -- intros Hall l Hin. apply Hall. by right.
Qed.

(** The device found is the first of the slice that matches. *)
Lemma findDeviceByID_Some (h : heap) (devices : list loc) (id : bytes) (dev : loc) :
  findDeviceByID h devices id = Some dev →
  ∃ pre suf, devices = (pre ++ dev :: suf)%list ∧ matches id (h dev) ∧
    ∀ l, l ∈ pre → ¬ matches id (h l).
Proof.
  induction devices as [|d rest IH]; simpl; [done|].
  intros Hf.
  assert (Hskip : ¬ matches id (h d) → findDeviceByID h rest id = Some dev →
            ∃ pre suf, d :: rest = (pre ++ dev :: suf)%list ∧ matches id (h dev) ∧
              ∀ l, l ∈ pre → ¬ matches id (h l)).
  { intros Hn Hr. destruct (IH Hr) as (pre & suf & -> & Hm & Hpre).
    exists (d :: pre), suf. split; [done|]. split; [done|].
    intros l [->|Hin]%elem_of_cons; [done | by apply Hpre]. }
  assert (Hhere : matches id (h d) → Some d = Some dev →
            ∃ pre suf, d :: rest = (pre ++ dev :: suf)%list ∧ matches id (h dev) ∧
              ∀ l, l ∈ pre → ¬ matches id (h l)).
  { intros Hm [= ->]. exists [], rest. split; [done|]. split; [done|].
    intros l Hin. apply elem_of_nil in Hin. destruct Hin. }
  unfold matches in Hskip, Hhere.
  destruct (types.Device (h d)) as [t|u|wd] eqn:Hd.
  - apply Hskip; [tauto | done].
  - destruct (bytes_Equal (types.KeyHandle u) id) eqn:Heq.
    + apply Hhere; [by apply bytes_Equal_eq | done].
    + apply Hskip; [|done]. intros Hk. apply bytes_Equal_eq in Hk. congruence.
  - destruct (bytes_Equal (types.CredentialId wd) id) eqn:Heq.
    + apply Hhere; [by apply bytes_Equal_eq | done].
    + apply Hskip; [|done]. intros Hk. apply bytes_Equal_eq in Hk. congruence.
Qed.

(** C8.  When the raw credential identifier of the parsed response equals
    neither the key handle of a U2F device nor the credential identifier of
    a Webauthn device among the devices of the user, [Finish] fails with the
    BadParameter error that quotes the base64 form of the raw identifier.
    The verifier is not asked: the answer is the same whatever it would say.
    The devices are compared in slice order by equality of byte strings. *)
Theorem Finish_unknown_credential (f : LoginFlow) (user : string)
    (resp : CredentialAssertionResponse)
    (p : protocol.ParsedCredentialAssertionData)
    (devices : list loc) (i1 : I) (h1 : heap) (w : world I) :
  types.Disabled (Webauthn f) = false →
  user ≠ "" →
  parseCredentialResponse C resp = Ok p →
  validateOrigin C
    (protocol.Origin (protocol.CollectedClientData_ (protocol.pResponse p)))
    (types.RPID (Webauthn f)) = None →
  GetMFADevices user false (ident w, mem w) = (Ok devices, (i1, h1)) →
  (∀ dev, dev ∈ devices → ¬ matches (protocol.RawID p) (h1 dev)) →
  Finish C f user (Some resp) w
  = (Err (BadParameter
            ("unknown device credential: " ++
             fmt_q (base64.EncodeToString (protocol.RawID p)))),
     World i1 h1 (clock w) (rng w),
     [EvGetMFADevices user false (Ok devices)]).
Proof.
  intros Hen Hu Hp Ho Hdevs Hnone.
  apply findDeviceByID_None in Hnone.
  unfold Finish. rewrite Hen. apply String.eqb_neq in Hu. rewrite Hu.
  unfold check, pure, Identity_GetMFADevices, call, bind, ret, fail.
  rewrite Hp. simpl. rewrite Ho, Hdevs. simpl. rewrite Hnone. reflexivity.
Qed.





Lemma Finish_delete_post (f : LoginFlow) (user : string)
    (resp : option CredentialAssertionResponse) (w : world I) :
  post (Finish C f user resp) w (λ r _ evs,
    (∀ e, r = Err e → List.filter isDelete evs = [])
    ∧ (∀ l, r = Ok l →
         ∃ d, List.filter isDelete evs
              = [EvDeleteWebauthnSessionData user loginSessionID d])
    ∧ (∀ u s err, EvDeleteWebauthnSessionData u s (Some err) ∈ evs →
         (∃ l, r = Ok l)
         ∧ EvLog WarnLevel (FailedToDeleteSessionData user) ∈ evs)).
Proof.
  unfold Finish.
  flow_steps; simpl;
    (split; [| split];
     [ intros e' He; first [ discriminate He | reflexivity ]
     | intros l' Hl; first [ discriminate Hl | by eexists ]
     | intros u' s' err' Hin; in_cases Hin;
       (split; [by eexists | in_list]) ]).
Qed.

(** C7, as the code has it.  [Finish] calls [DeleteWebauthnSessionData] on
    its success path only, once and for the fixed slot of the user: a run
    that returns an error has made no such call.  A failure of that call is
    not fatal: the run still returns the device, and the failure is logged
    as a warning. *)
Theorem Finish_deletes_on_success_only (f : LoginFlow) (user : string)
    (resp : option CredentialAssertionResponse) (w w' : world I)
    (r : result loc) (evs : list event) :
  Finish C f user resp w = (r, w', evs) →
  (∀ e, r = Err e → List.filter isDelete evs = [])
  ∧ (∀ l, r = Ok l →
       ∃ d, List.filter isDelete evs
            = [EvDeleteWebauthnSessionData user loginSessionID d])
  ∧ (∀ u s err, EvDeleteWebauthnSessionData u s (Some err) ∈ evs →
       (∃ l, r = Ok l)
       ∧ EvLog WarnLevel (FailedToDeleteSessionData user) ∈ evs).
Proof.
  intros Hrun.
  exact (post_run _ _ _ _ _ _ (Finish_delete_post f user resp w) Hrun).
Qed.

(** C9, as the code has it.  For a user whose device set is empty, with
    the protocol enabled and a user name, [Begin] has no check of its own:
    once the user handle is resolved and [newWebAuthn] has made its object,
    it hands [BeginLogin] a user without credentials and the outcome is the
    one of [BeginLogin].  When [BeginLogin] refuses, [Begin] returns its
    error and stores no session data; when it answers, and the session data
    is stored, [Begin] returns its assertion, whose list of allowed
    credentials is empty when the library lists in the assertion the
    credentials of the user it is given. *)
Theorem Begin_no_devices (f : LoginFlow) (user : string) (w : world I)
    (i1 i2 : I) (h1 h2 : heap) (id : bytes) (web : wan.WebAuthn)
    (descr : wan.Credential → protocol.CredentialDescriptor) :
  types.Disabled (Webauthn f) = false →
  user ≠ "" →
  GetMFADevices user false (ident w, mem w) = (Ok [], (i1, h1)) →
  getOrCreateUserWebauthnID C user (i1, h1) = (Ok id, (i2, h2)) →
  newWebAuthn C (Webauthn f) (types.RPID (Webauthn f)) "" = Ok web →
  credentials (newWebUser user id true []) = []
  ∧ match BeginLogin C web (newWebUser user id true []) (loginOptions f) (rng w)
    with
    | (Err e, g) =>
        Begin C f user w
        = (Err e, World i2 h2 (clock w) g,
           [EvGetMFADevices user false (Ok []);
            EvGetOrCreateUserWebauthnID user (Ok id);
            EvBeginLogin web (newWebUser user id true []) (loginOptions f)
              (Err e)])
    | (Ok (a, sd), g) =>
        (∀ pb i3 h3,
           sessionToPB C sd = Ok pb →
           UpsertWebauthnSessionData user loginSessionID pb (i2, h2)
           = (None, (i3, h3)) →
           Begin C f user w
           = (Ok a, World i3 h3 (clock w) g,
              [EvGetMFADevices user false (Ok []);
               EvGetOrCreateUserWebauthnID user (Ok id);
               EvBeginLogin web (newWebUser user id true []) (loginOptions f)
                 (Ok (a, sd));
               EvUpsertWebauthnSessionData user loginSessionID pb None]))
        ∧ ((∀ web' u opts g0 a' sd' g',
              BeginLogin C web' u opts g0 = (Ok (a', sd'), g') →
              protocol.AllowedCredentials (protocol.Response a')
              = descr <$> credentials u) →
           protocol.AllowedCredentials (protocol.Response a) = [])
    end.
Proof.
  intros Hen Hu Hdevs Hid Hweb.
  apply String.eqb_neq in Hu.
  split; [reflexivity|].
  destruct (BeginLogin C web (newWebUser user id true []) (loginOptions f) (rng w))
    as [[[a sd]|e] g] eqn:Hbegin.
  - split.
    + intros pb i3 h3 Hpb Hup.
      unfold Begin. rewrite Hen, Hu.
      unfold check, check_err, pure, Identity_GetMFADevices,
        call_getOrCreateUserWebauthnID, Identity_UpsertWebauthnSessionData,
        web_BeginLogin, call, derefs, bind, ret, fail.
      rewrite Hdevs. simpl. rewrite Hid. simpl. rewrite Hweb. simpl.
      rewrite Hbegin. simpl. rewrite Hpb. simpl. rewrite Hup. reflexivity.
    + intros Hallow. by rewrite (Hallow _ _ _ _ _ _ _ Hbegin).
  - unfold Begin. rewrite Hen, Hu.
    unfold check, check_err, pure, Identity_GetMFADevices,
      call_getOrCreateUserWebauthnID, Identity_UpsertWebauthnSessionData,
      web_BeginLogin, call, derefs, bind, ret, fail.
    rewrite Hdevs. simpl. rewrite Hid. simpl. rewrite Hweb. simpl.
    rewrite Hbegin. reflexivity.
Qed.

(** The options of [Begin] are decided by the configuration alone. *)
Lemma loginOptions_spec (f : LoginFlow) :
  loginOptions f =
    match U2F f with
    | Some u2f =>
        if decide (types.AppID u2f = "") then []
        else [wan.WithAssertionExtensions {[ AppIDExtension := types.AppID u2f ]}]
    | None => []
    end.
Proof.
  unfold loginOptions. destruct (U2F f) as [u2f|]; [|done].
  destruct (String.eqb_spec (types.AppID u2f) ""); by case_decide.
Qed.

(** What [Begin] asks of [BeginLogin] does not depend on the devices: the
    options are those of the configuration, whatever the identity holds. *)
Lemma Begin_options (f : LoginFlow) (user : string) (w : world I) :
  post (Begin C f user) w (λ _ _ evs,
    ∀ web u opts r, EvBeginLogin web u opts r ∈ evs → opts = loginOptions f).
Proof.
  unfold Begin.
  flow_steps; simpl; intros web' u' opts' r' Hin; in_cases Hin;
    by injection Hin as -> -> -> ->.
Qed.

(** [Begin] stores session data under the fixed identifier of the user,
    and a successful [Begin] ends with that call. *)
Lemma Begin_session_slot (f : LoginFlow) (user : string) (w : world I) :
  post (Begin C f user) w (λ r w' evs,
    (∀ u sid sd e, EvUpsertWebauthnSessionData u sid sd e ∈ evs →
       u = user ∧ sid = loginSessionID)
    ∧ (∀ a, r = Ok a →
         ∃ pb s, last evs
                 = Some (EvUpsertWebauthnSessionData user loginSessionID pb None)
           ∧ UpsertWebauthnSessionData user loginSessionID pb s
             = (None, (ident w', mem w')))).
Proof.
  unfold Begin.
  flow_steps; simpl;
    (split;
     [ intros u' sid' sd' e' Hin; in_cases Hin; by injection Hin as -> -> -> ->
     | intros a' Ha;
       first [ discriminate Ha
             | eexists _, _; (split; [reflexivity | eassumption]) ] ]).
Qed.

Section SessionLaws.

Context {L : SessionStoreLaws I}.

(** The session data [Finish] reads is the one the identity held when the
    call began: the device lookup and the lookup of the user handle come
    first and leave it alone. *)
Lemma session_frame (user : string) (s s1 s2 s3 : store I)
    (devs : result (list loc)) (wla : result types.WebauthnLocalAuth)
    (pb : wantypes.SessionData) :
  GetMFADevices user false s = (devs, s1) →
  GetWebauthnLocalAuth user s1 = (wla, s2) →
  GetWebauthnSessionData user loginSessionID s2 = (Ok pb, s3) →
  session_of user loginSessionID s = Ok pb.
Proof.
  intros Hd Ha Hs.
  rewrite <- (get_devices_keeps_sessions user false s), Hd. simpl.
  rewrite <- (get_local_auth_keeps_sessions user s1), Ha. simpl.
  unfold session_of. by rewrite Hs.
Qed.

Lemma Finish_session_post (f : LoginFlow) (user : string)
    (resp : option CredentialAssertionResponse) (w : world I) :
  post (Finish C f user resp) w (λ r _ evs,
    (∀ web u sd p r', EvValidateLogin web u sd p r' ∈ evs →
       r' = ValidateLogin C web u sd p
       ∧ ∃ pb resp',
           session_of user loginSessionID (ident w, mem w) = Ok pb
           ∧ sd = sessionFromPB C pb
           ∧ resp = Some resp'
           ∧ parseCredentialResponse C resp' = Ok p)
    ∧ (∀ l, r = Ok l → ∃ web u sd p c, EvValidateLogin web u sd p (Ok c) ∈ evs)).
Proof.
  unfold Finish.
  flow_steps; simpl;
    (split;
     [ intros web' u' sd' p' r' Hin; in_cases Hin;
       injection Hin as -> -> -> -> ->;
       (split; [done|]); eexists _, _;
       (split; [eapply session_frame; eassumption | done])
     | intros l' Hl;
       first [ discriminate Hl | eexists _, _, _, _, _; in_list ] ]).
Qed.

Lemma Finish_delete_state (f : LoginFlow) (user : string)
    (resp : option CredentialAssertionResponse) (w : world I) :
  post (Finish C f user resp) w (λ r w' evs,
    ∀ l, r = Ok l →
      EvDeleteWebauthnSessionData user loginSessionID None ∈ evs →
      ∃ s, DeleteWebauthnSessionData user loginSessionID s
           = (None, (ident w', mem w'))).
Proof.
  unfold Finish.
  flow_steps; simpl; intros l' Hl Hin; try discriminate Hl;
    in_cases Hin; eexists; eassumption.
Qed.

(** A [Finish] that finds no session data for the user fails, and does
    not ask the verifier. *)
Lemma Finish_without_session (f : LoginFlow) (user : string)
    (resp : option CredentialAssertionResponse) (w w' : world I)
    (r : result loc) (evs : list event) (e : error) :
  session_of user loginSessionID (ident w, mem w) = Err e →
  Finish C f user resp w = (r, w', evs) →
  (∃ e', r = Err e') ∧ ∀ ev, ev ∈ evs → isValidateLogin ev = false.
Proof.
  intros Hs Hrun.
  pose proof (post_run _ _ _ _ _ _ (Finish_session_post f user resp w) Hrun)
    as [Hev Hok]. simpl in Hev, Hok.
  assert (Hnone : ∀ ev, ev ∈ evs → isValidateLogin ev = false).
  { intros ev Hin. destruct ev; try reflexivity.
    destruct (Hev _ _ _ _ _ Hin) as (_ & pb & resp' & Hpb & _). congruence. }
  split; [|done].
  destruct r as [l|e']; [|by eexists].
  destruct (Hok l eq_refl) as (web & u & sd & p & c & Hin).
  apply Hnone in Hin. discriminate Hin.
Qed.

(** C1, as the code has it.  After a [Finish] that succeeded and whose
    deletion of the session data succeeded, the identity has no session
    data for the user, and a second [Finish] with the same response fails
    without asking the verifier. *)
Theorem Finish_single_use (f : LoginFlow) (user : string)
    (resp : option CredentialAssertionResponse) (w w1 : world I)
    (dev : loc) (t1 : list event) :
  Finish C f user resp w = (Ok dev, w1, t1) →
  EvDeleteWebauthnSessionData user loginSessionID None ∈ t1 →
  (∃ e, session_of user loginSessionID (ident w1, mem w1) = Err e)
  ∧ (∃ e, (Finish C f user resp w1).1.1 = Err e)
  ∧ (∀ ev, ev ∈ (Finish C f user resp w1).2 → isValidateLogin ev = false).
Proof.
  intros Hrun Hdel.
  destruct (post_run _ _ _ _ _ _ (Finish_delete_state f user resp w) Hrun
              dev eq_refl Hdel) as [s Hs].
  destruct (get_after_delete _ _ _ _ Hs) as [e He].
  split; [by exists e|].
  destruct (Finish C f user resp w1) as [[r2 w2] t2] eqn:Hrun2.
  destruct (Finish_without_session _ _ _ _ _ _ _ _ He Hrun2) as [Herr Hno].
  by split.
Qed.

(** C4.  [Begin] stores session data only under the fixed identifier
    "login" of the user, so a second [Begin] for the user replaces what
    the first stored: the identity then answers with the session data of the
    second.  With a verifier that accepts a response only for the challenge
    of the session data it is given, a [Finish] with a response to the first
    challenge fails once the two challenges differ. *)
Theorem Begin_supersedes (f : LoginFlow) (user : string) (w0 w1 w2 : world I)
    (a1 a2 : CredentialAssertion) (t1 t2 : list event) :
  (∀ web u sd p c, ValidateLogin C web u sd p = Ok c →
     protocol.cdChallenge
       (protocol.CollectedClientData_ (protocol.pResponse p))
     = wan.Challenge sd) →
  Begin C f user w0 = (Ok a1, w1, t1) →
  Begin C f user w1 = (Ok a2, w2, t2) →
  ∃ pb1 pb2,
    last t1 = Some (EvUpsertWebauthnSessionData user loginSessionID pb1 None)
    ∧ last t2 = Some (EvUpsertWebauthnSessionData user loginSessionID pb2 None)
    ∧ (∀ u sid sd e, EvUpsertWebauthnSessionData u sid sd e ∈ (t1 ++ t2)%list →
         u = user ∧ sid = loginSessionID)
    ∧ session_of user loginSessionID (ident w2, mem w2) = Ok pb2
    ∧ ∀ resp p,
        parseCredentialResponse C resp = Ok p →
        protocol.cdChallenge
          (protocol.CollectedClientData_ (protocol.pResponse p))
        = wan.Challenge (sessionFromPB C pb1) →
        wan.Challenge (sessionFromPB C pb1) ≠ wan.Challenge (sessionFromPB C pb2) →
        ∃ e, (Finish C f user (Some resp) w2).1.1 = Err e.
Proof.
  intros Hver Hb1 Hb2.
  destruct (post_run _ _ _ _ _ _ (Begin_session_slot f user w0) Hb1)
    as [Hslot1 Hlast1].
  destruct (post_run _ _ _ _ _ _ (Begin_session_slot f user w1) Hb2)
    as [Hslot2 Hlast2].
  destruct (Hlast1 a1 eq_refl) as (pb1 & s1 & Hl1 & _).
  destruct (Hlast2 a2 eq_refl) as (pb2 & s2 & Hl2 & Hup2).
  exists pb1, pb2. split; [done|]. split; [done|]. split.
  { intros u sid sd e [Hin|Hin]%elem_of_app; eauto. }
  pose proof (get_after_upsert _ _ _ _ _ Hup2) as Hget.
  split; [done|].
  intros resp p Hp Hch Hne.
  destruct (Finish C f user (Some resp) w2) as [[r3 w3] t3] eqn:Hrun. simpl.
  destruct (post_run _ _ _ _ _ _ (Finish_session_post f user (Some resp) w2) Hrun)
    as [Hev Hok].
  destruct r3 as [l|e]; [|by eexists].
  destruct (Hok l eq_refl) as (web & u & sd & p' & c & Hin).
  destruct (Hev _ _ _ _ _ Hin) as (Hval & pb & resp' & Hpb & -> & [= <-] & Hp').
  assert (p' = p) as -> by congruence.
  assert (pb = pb2) as -> by congruence.
  symmetry in Hval. apply Hver in Hval. congruence.
Qed.

End SessionLaws.

End Properties.

(** ** The identity with a fixed set of devices *)

(** C10.  The identity made by [WithDevices] answers [GetMFADevices] with
    the slice it was given and no error, for every user and both values of
    [withSecrets]; the answer is the same whatever the wrapped identity
    holds, and the wrapped identity and the heap are left as they were.
    Every other method runs on the wrapped identity and keeps the slice, so
    the answer stays the same after it. *)
Theorem WithDevices_GetMFADevices {I : Type} `{LoginIdentity I}
    (identity : I) (devs : list loc) (user : string) (withSecrets : bool)
    (h : heap) :
  GetMFADevices user withSecrets (WithDevices identity devs, h)
  = (Ok devs, (WithDevices identity devs, h))
  ∧ (∀ u, GetWebauthnLocalAuth u (WithDevices identity devs, h)
          = let '(r, (i, h')) := GetWebauthnLocalAuth u (identity, h) in
            (r, (WithDevices i devs, h')))
  ∧ (∀ u d, UpsertMFADevice u d (WithDevices identity devs, h)
            = let '(r, (i, h')) := UpsertMFADevice u d (identity, h) in
              (r, (WithDevices i devs, h')))
  ∧ (∀ u sid sd, UpsertWebauthnSessionData u sid sd (WithDevices identity devs, h)
                 = let '(r, (i, h')) := UpsertWebauthnSessionData u sid sd (identity, h) in
                   (r, (WithDevices i devs, h')))
  ∧ (∀ u sid, GetWebauthnSessionData u sid (WithDevices identity devs, h)
              = let '(r, (i, h')) := GetWebauthnSessionData u sid (identity, h) in
                (r, (WithDevices i devs, h')))
  ∧ (∀ u sid, DeleteWebauthnSessionData u sid (WithDevices identity devs, h)
              = let '(r, (i, h')) := DeleteWebauthnSessionData u sid (identity, h) in
                (r, (WithDevices i devs, h')))
  ∧ (∀ u d, (GetMFADevices user withSecrets
               (UpsertMFADevice u d (WithDevices identity devs, h)).2).1
            = Ok devs).
Proof.
  repeat split; try reflexivity.
  intros u d. simpl. unfold promoted. simpl.
  by destruct (UpsertMFADevice u d (identity, h)) as [r [i h']].
Qed.

(** ** The in-memory identity keeps the laws of session storage *)

Lemma Mem_session_laws : SessionStoreLaws Mem.identity.
Proof.
  split; unfold session_of; simpl.
  - intros user sid sd [i h] s' [= <-]. simpl. by rewrite lookup_insert_eq.
  - intros user sid [i h] s'. unfold Mem.deleteSession. simpl.
    destruct (Mem.deleteFails i); [done|]. intros [= <-]. simpl.
    rewrite lookup_delete_eq. by eexists.
  - done.
  - done.
  - done.
Qed.

Lemma Mem_verifier_checks_challenge web u sd p c :
  ValidateLogin Mem.collab web u sd p = Ok c →
  protocol.cdChallenge (protocol.CollectedClientData_ (protocol.pResponse p))
  = wan.Challenge sd.
Proof.
  simpl. unfold Mem.validateLogin.
  destruct (String.eqb_spec (wan.Challenge sd)
    (protocol.cdChallenge (protocol.CollectedClientData_ (protocol.pResponse p))));
    simpl; [done | discriminate].
Qed.

(** ** The flow on the scenario *)

Lemma run_eta {A B D : Type} (x : A * B * D) : x = (x.1.1, x.1.2, x.2).
Proof. by destruct x as [[a b] d]. Qed.

(** C3 on the scenario: a response from https://evil.example for the
    relying party example.com, with a signature the verifier accepts. *)
Lemma Finish_origin_mismatch_witness :
  Finish Mem.collab Scenario.flow "alice" (Some Scenario.evil)
    (Scenario.begun Scenario.flow "alice" false)
  = (Err (BadParameter "origin does not match the relying party"),
     Scenario.begun Scenario.flow "alice" false,
     [EvLog DebugLevel
        (OriginValidationFailed
           (BadParameter "origin does not match the relying party"))]).
Proof.
  apply (Finish_origin_mismatch Mem.collab Scenario.flow "alice" Scenario.evil
           Scenario.evilParsed).
  - reflexivity.
  - discriminate.
  - vm_compute. reflexivity.
  - vm_compute. reflexivity.
Defined.

(** C2 on the scenario: a response with a signature the verifier refuses
    changes no device. *)
Lemma Finish_mutates_only_after_verification_witness :
  (Finish Mem.collab Scenario.flow "alice" (Some Scenario.forged)
     (Scenario.begun Scenario.flow "alice" false)).1.1
  = Err (Opaque "Error validating the assertion signature")
  ∧ (∀ ev,
       ev ∈ (Finish Mem.collab Scenario.flow "alice" (Some Scenario.forged)
               (Scenario.begun Scenario.flow "alice" false)).2 →
       mutates ev = false).
Proof.
  split; [vm_compute; reflexivity|].
  pose (run := Finish Mem.collab Scenario.flow "alice" (Some Scenario.forged)
                 (Scenario.begun Scenario.flow "alice" false)).
  apply (Finish_mutates_only_after_verification Mem.collab Scenario.flow "alice"
           (Some Scenario.forged) (Scenario.begun Scenario.flow "alice" false)
           run.1.2 run.1.1 run.2 (run_eta run)).
  intros ev Hin. vm_compute in Hin. in_cases Hin; subst ev; reflexivity.
Defined.

(** C8 on the scenario: the credential Z is not one of alice. *)
Lemma Finish_unknown_credential_witness :
  Finish Mem.collab Scenario.flow "alice" (Some Scenario.unknown)
    (Scenario.begun Scenario.flow "alice" false)
  = (Err (BadParameter ("unknown device credential: " ++ fmt_q "Wg")),
     Scenario.begun Scenario.flow "alice" false,
     [EvGetMFADevices "alice" false (Ok [1%positive])]).
Proof.
  apply (Finish_unknown_credential Mem.collab Scenario.flow "alice"
           Scenario.unknown Scenario.unknownParsed [1%positive]
           (ident (Scenario.begun Scenario.flow "alice" false))
           (mem (Scenario.begun Scenario.flow "alice" false))).
  - reflexivity.
  - discriminate.
  - vm_compute. reflexivity.
  - vm_compute. reflexivity.
  - vm_compute. reflexivity.
  - intros dev Hin. in_cases Hin. subst dev. vm_compute. intros [=].
Defined.



(** C7 as stated fails: a [Finish] that fails at the verifier makes no call
    to delete the session data, which the identity still holds. *)
Lemma Finish_failure_keeps_session :
  (Finish Mem.collab Scenario.flow "alice" (Some Scenario.forged)
     (Scenario.begun Scenario.flow "alice" false)).1.1
  = Err (Opaque "Error validating the assertion signature")
  ∧ List.filter isDelete
      (Finish Mem.collab Scenario.flow "alice" (Some Scenario.forged)
         (Scenario.begun Scenario.flow "alice" false)).2 = []
  ∧ Mem.sessions
      (ident (Finish Mem.collab Scenario.flow "alice" (Some Scenario.forged)
                (Scenario.begun Scenario.flow "alice" false)).1.2)
      !! ("alice", loginSessionID)
    = Some {| wantypes.Challenge := Scenario.challenge1;
              wantypes.UserId := list_byte_of_string "alice";
              wantypes.AllowCredentials := [Scenario.C1] |}.
Proof. vm_compute. repeat split. Qed.

(** C7 on the scenario: the deletion fails, the device is returned and the
    failure is logged. *)
Lemma Finish_deletes_on_success_only_witness :
  (∃ l, (Finish Mem.collab Scenario.flow "alice" (Some Scenario.good)
           (Scenario.begun Scenario.flow "alice" true)).1.1 = Ok l)
  ∧ EvLog WarnLevel (FailedToDeleteSessionData "alice")
    ∈ (Finish Mem.collab Scenario.flow "alice" (Some Scenario.good)
         (Scenario.begun Scenario.flow "alice" true)).2.
Proof.
  pose (w := Scenario.begun Scenario.flow "alice" true).
  pose (run := Finish Mem.collab Scenario.flow "alice" (Some Scenario.good) w).
  apply (proj2 (proj2
           (Finish_deletes_on_success_only Mem.collab Scenario.flow "alice"
              (Some Scenario.good) w run.1.2 run.1.1 run.2 (run_eta run)))
           "alice" loginSessionID (Opaque "backend unavailable")).
  vm_compute. in_list.
Defined.

(** C1 as stated fails: when the deletion of the session data fails, the
    first [Finish] succeeds all the same, and so does a second one with the
    same response. *)
Lemma Finish_twice_when_delete_fails :
  (Finish Mem.collab Scenario.flow "alice" (Some Scenario.good)
     (Scenario.begun Scenario.flow "alice" true)).1.1 = Ok 1%positive
  ∧ (Finish Mem.collab Scenario.flow "alice" (Some Scenario.good)
       (Finish Mem.collab Scenario.flow "alice" (Some Scenario.good)
          (Scenario.begun Scenario.flow "alice" true)).1.2).1.1 = Ok 1%positive.
Proof. vm_compute. split; reflexivity. Qed.

(** C1 on the scenario: with a deletion that works, the second [Finish]
    fails. *)
Lemma Finish_single_use_witness :
  ∃ e,
    (Finish Mem.collab Scenario.flow "alice" (Some Scenario.good)
       (Finish Mem.collab Scenario.flow "alice" (Some Scenario.good)
          (Scenario.begun Scenario.flow "alice" false)).1.2).1.1 = Err e.
Proof.
  pose (w := Scenario.begun Scenario.flow "alice" false).
  pose (run := Finish Mem.collab Scenario.flow "alice" (Some Scenario.good) w).
  assert (Hrun : Finish Mem.collab Scenario.flow "alice" (Some Scenario.good) w
                 = (Ok 1%positive, run.1.2, run.2))
    by (vm_compute; reflexivity).
  assert (Hdel : EvDeleteWebauthnSessionData "alice" loginSessionID None ∈ run.2)
    by (vm_compute; in_list).
  exact (proj1 (proj2
           (Finish_single_use (L := Mem_session_laws) Mem.collab Scenario.flow
              "alice" (Some Scenario.good) w run.1.2 1%positive run.2
              Hrun Hdel))).
Defined.

(** C4 on the scenario: two [Begin] for alice, then the response to the
    first challenge. *)
Lemma Begin_supersedes_witness :
  ∃ e,
    (Finish Mem.collab Scenario.flow "alice" (Some Scenario.good)
       (Begin Mem.collab Scenario.flow "alice"
          (Scenario.begun Scenario.flow "alice" false)).1.2).1.1 = Err e.
Proof.
  pose (w0 := Scenario.world0 false).
  pose (b1 := Begin Mem.collab Scenario.flow "alice" w0).
  pose (b2 := Begin Mem.collab Scenario.flow "alice" b1.1.2).
  pose (a := {| protocol.Response :=
                  {| protocol.Challenge := [];
                     protocol.RelyingPartyID := "";
                     protocol.AllowedCredentials := [];
                     protocol.Extensions := ∅ |} |}).
  pose (val := λ r : result CredentialAssertion,
                 match r with Ok x => x | Err _ => a end).
  assert (H1 : Begin Mem.collab Scenario.flow "alice" w0
               = (Ok (val b1.1.1), b1.1.2, b1.2)) by (vm_compute; reflexivity).
  assert (H2 : Begin Mem.collab Scenario.flow "alice" b1.1.2
               = (Ok (val b2.1.1), b2.1.2, b2.2)) by (vm_compute; reflexivity).
  destruct (Begin_supersedes (L := Mem_session_laws) Mem.collab Scenario.flow
              "alice" w0 b1.1.2 b2.1.2 (val b1.1.1) (val b2.1.1) b1.2 b2.2
              Mem_verifier_checks_challenge H1 H2)
    as (pb1 & pb2 & Hl1 & Hl2 & _ & _ & Hfin).
  vm_compute in Hl1, Hl2.
  injection Hl1 as <-. injection Hl2 as <-.
  apply (Hfin Scenario.good Scenario.goodParsed).
  - vm_compute. reflexivity.
  - vm_compute. reflexivity.
  - vm_compute. discriminate.
Defined.

Lemma Mem_beginLogin_allowed web u opts g a sd g' :
  BeginLogin Mem.collab web u opts g = (Ok (a, sd), g') →
  protocol.AllowedCredentials (protocol.Response a)
  = (λ c, protocol.Build_CredentialDescriptor "public-key" (wan.ID c))
      <$> credentials u.
Proof.
  simpl. unfold Mem.beginLogin. intros [= <- _ _]. simpl.
  induction opts as [|[e] opts IH]; simpl; [by rewrite <- list_fmap_compose | done].
Qed.

(** C9 as stated fails: with a library that refuses a user without
    credentials, [Begin] for carol, who has no device, returns the error of
    [BeginLogin]. *)
Lemma Begin_no_devices_refused :
  (Begin strictCollab Scenario.flow "carol" (Scenario.world0 false)).2 !! 0%nat
  = Some (EvGetMFADevices "carol" false (Ok []))
  ∧ (Begin strictCollab Scenario.flow "carol" (Scenario.world0 false)).1.1
    = Err (BadParameter "Found no credentials for user")
  ∧ List.filter isValidateLogin
      (Begin strictCollab Scenario.flow "carol" (Scenario.world0 false)).2 = []
  ∧ Mem.sessions
      (ident (Begin strictCollab Scenario.flow "carol"
                (Scenario.world0 false)).1.2)
      !! ("carol", loginSessionID) = None.
Proof. vm_compute. repeat split. Qed.

(** C9 on the scenario: carol has no device.  With the library that
    refuses her [Begin] fails; with the one that answers, [Begin] succeeds
    and the list of allowed credentials is empty. *)
Lemma Begin_no_devices_witness :
  (Begin strictCollab Scenario.flow "carol" (Scenario.world0 false)).1.1
  = Err (BadParameter "Found no credentials for user")
  ∧ ∃ a,
      (Begin Mem.collab Scenario.flow "carol" (Scenario.world0 false)).1.1 = Ok a
      ∧ protocol.AllowedCredentials (protocol.Response a) = [].
Proof.
  pose (w := Scenario.world0 false).
  pose (id := list_byte_of_string "carol").
  pose (i2 := Mem.Identity (Mem.registry (ident w)) (Mem.sessions (ident w))
                (<["carol" := types.Build_WebauthnLocalAuth id]>
                   (Mem.localAuth (ident w)))
                (Mem.deleteFails (ident w))).
  pose (web := {| wan.RPID := "example.com"; wan.RPOrigin := "" |}).
  pose (descr := λ c, protocol.Build_CredentialDescriptor "public-key" (wan.ID c)).
  assert (Hu : "carol" ≠ "") by discriminate.
  assert (Hd : GetMFADevices "carol" false (ident w, mem w)
               = (Ok [], (ident w, mem w))) by reflexivity.
  split.
  - assert (Hid : getOrCreateUserWebauthnID strictCollab "carol" (ident w, mem w)
                  = (Ok id, (i2, mem w))) by reflexivity.
    pose proof (proj2
                  (Begin_no_devices strictCollab Scenario.flow "carol" w
                     (ident w) i2 (mem w) (mem w) id web descr
                     eq_refl Hu Hd Hid eq_refl)) as Hrun.
    change (Begin strictCollab Scenario.flow "carol" w
            = (Err (BadParameter "Found no credentials for user"),
               World i2 (mem w) (clock w) (rng w),
               [EvGetMFADevices "carol" false (Ok []);
                EvGetOrCreateUserWebauthnID "carol" (Ok id);
                EvBeginLogin web (newWebUser "carol" id true [])
                  (loginOptions Scenario.flow)
                  (Err (BadParameter "Found no credentials for user"))]))
      in Hrun.
    exact (f_equal (λ x, x.1.1) Hrun).
  - assert (Hid : getOrCreateUserWebauthnID Mem.collab "carol" (ident w, mem w)
                  = (Ok id, (i2, mem w))) by reflexivity.
    pose proof (proj2
                  (Begin_no_devices Mem.collab Scenario.flow "carol" w
                     (ident w) i2 (mem w) (mem w) id web descr
                     eq_refl Hu Hd Hid eq_refl)) as Hrun.
    hnf in Hrun. destruct Hrun as [Hrun Hallow].
    eexists. split.
    + exact (f_equal (λ x, x.1.1) (Hrun _ _ _ eq_refl eq_refl)).
    + apply Hallow. intros web' u opts g0 a' sd' g'. apply Mem_beginLogin_allowed.
Defined.

(** C6, the code at the input where it departs from the claim.  alice has
    no U2F device and carol has no device at all; the U2F configuration
    names an App ID.  [Begin] asks for the App ID extension both times, and
    the assertion carries it. *)
Theorem Begin_appid_extension_without_u2f_device :
  hasU2FDevice (Scenario.heap0 <$> [1%positive]) = false
  ∧ (Begin Mem.collab Scenario.flow "alice" (Scenario.world0 false)).2 !! 0%nat
    = Some (EvGetMFADevices "alice" false (Ok [1%positive]))
  ∧ (∃ a,
       (Begin Mem.collab Scenario.flow "alice" (Scenario.world0 false)).1.1 = Ok a
       ∧ protocol.Extensions (protocol.Response a) !! AppIDExtension
         = Some "https://example.com")
  ∧ (Begin Mem.collab Scenario.flow "carol" (Scenario.world0 false)).2 !! 0%nat
    = Some (EvGetMFADevices "carol" false (Ok []))
  ∧ (∃ a,
       (Begin Mem.collab Scenario.flow "carol" (Scenario.world0 false)).1.1 = Ok a
       ∧ protocol.Extensions (protocol.Response a) !! AppIDExtension
         = Some "https://example.com").
Proof.
  split; [reflexivity|]. split; [vm_compute; reflexivity|].
  split; [eexists; split; vm_compute; reflexivity|].
  split; [vm_compute; reflexivity|].
  eexists; split; vm_compute; reflexivity.
Qed.

(** ** More of login.go *)

Section More.

Context {I : Type} `{LoginIdentity I} (C : Collab I).

(** X1.  [Begin] refuses a disabled configuration before it looks at the
    user, and an empty user before it calls anything: both return a
    BadParameter error, no event and the world as it was. *)
Theorem Begin_preconditions (u2f : option types.U2F) (rpID : string)
    (user : string) (w : world I) :
  Begin C {| U2F := u2f; Webauthn := types.Build_Webauthn rpID true |} user w
  = (Err (BadParameter "webauthn disabled"), w, [])
  ∧ Begin C {| U2F := u2f; Webauthn := types.Build_Webauthn rpID false |} "" w
    = (Err (BadParameter "user required"), w, []).
Proof. split; reflexivity. Qed.

(** X2.  [Finish] checks, in this order, that the configuration is not
    disabled, that the user is not empty and that there is a response; each
    failure is a BadParameter error of its own, without any event and with
    the world as it was. *)
Theorem Finish_preconditions (u2f : option types.U2F) (rpID : string)
    (user : string) (c : ascii) (resp : option CredentialAssertionResponse)
    (w : world I) :
  Finish C {| U2F := u2f; Webauthn := types.Build_Webauthn rpID true |} user resp w
  = (Err (BadParameter "webauthn disabled"), w, [])
  ∧ Finish C {| U2F := u2f; Webauthn := types.Build_Webauthn rpID false |} "" resp w
    = (Err (BadParameter "user required"), w, [])
  ∧ Finish C {| U2F := u2f; Webauthn := types.Build_Webauthn rpID false |}
      (String c user) None w
    = (Err (BadParameter "credential assertion response required"), w, []).
Proof. repeat split; reflexivity. Qed.

(** X3.  [setCounterAndTimestamps] on a U2F or Webauthn device writes the
    signature count of the credential and the time of the clock into the
    device behind the pointer, keeps its name, identifier and keys, and
    leaves every other device and the identity alone; on another kind of
    device it returns a BadParameter error and writes nothing. *)
Theorem setCounterAndTimestamps_effect (dev : loc) (credential : wan.Credential)
    (w : world I) :
  match counterOf (mem w dev) with
  | Some _ =>
      (setCounterAndTimestamps (I := I) dev credential w).1.1 = Ok None
      ∧ (let w' := (setCounterAndTimestamps (I := I) dev credential w).1.2 in
         counterOf (mem w' dev)
         = Some (wan.SignCount (wan.Authenticator_ credential))
         ∧ types.LastUsed (mem w' dev) = clock w
         ∧ identityOf (mem w' dev) = identityOf (mem w dev)
         ∧ (∀ l, l ≠ dev → mem w' l = mem w l)
         ∧ ident w' = ident w ∧ clock w' = clock w ∧ rng w' = rng w)
  | None =>
      setCounterAndTimestamps (I := I) dev credential w
      = (Ok (Some (BadParameter "unexpected device type for webauthn: *types.MFADevice_Totp")), w, [])
  end.
Proof.
  unfold counterOf, identityOf, setCounterAndTimestamps, store_device, time_Now,
    deref, bind, ret.
  destruct (types.Device (mem w dev)) as [t|u|wd] eqn:Hd; simpl;
    [ reflexivity | | ];
    unfold heap_store; rewrite Pos.eqb_refl; simpl;
    (split; [reflexivity|]); (split; [reflexivity|]); (split; [reflexivity|]);
    (split; [reflexivity|]);
    (split; [|done]);
    intros l Hl; apply Pos.eqb_neq in Hl; by rewrite Hl.
Qed.

(** X4.  [findDeviceByID] answers with a device exactly when that device
    is the first of the slice whose key handle or credential identifier
    equals the identifier: devices before it do not match, and a device of
    another kind is never the answer. *)
Theorem findDeviceByID_first_match (h : heap) (devices : list loc) (id : bytes)
    (dev : loc) :
  findDeviceByID h devices id = Some dev ↔
  ∃ pre suf, devices = (pre ++ dev :: suf)%list ∧ matches id (h dev) ∧
    Forall (λ l, ¬ matches id (h l)) pre.
Proof.
  split.
  - intros Hf. destruct (findDeviceByID_Some h devices id dev Hf)
      as (pre & suf & -> & Hm & Hpre).
    exists pre, suf. split; [done|]. split; [done|].
    apply Forall_forall. intros l Hin. by apply Hpre.
  - intros (pre & suf & -> & Hm & Hpre).
    induction Hpre as [|l pre Hl Hpre IH]; simpl.
    + unfold matches in Hm.
      destruct (types.Device (h dev)) as [t|u|wd]; [done| |];
        apply bytes_Equal_eq in Hm; by rewrite Hm.
    + unfold matches in Hl.
      destruct (types.Device (h l)) as [t|u|wd]; [done| |].
      * destruct (bytes_Equal (types.KeyHandle u) id) eqn:Heq; [|done].
        by apply bytes_Equal_eq in Heq.
      * destruct (bytes_Equal (types.CredentialId wd) id) eqn:Heq; [|done].
        by apply bytes_Equal_eq in Heq.
Qed.

(** X5.  [Begin] only reads devices, resolves the user handle, asks the
    library for a challenge and stores session data: it never calls the
    verifier, never writes or persists a device and never deletes session
    data.  [Finish] never asks for a challenge, never creates a user handle
    and never stores session data. *)
Theorem Begin_Finish_calls (f : LoginFlow) (user : string)
    (resp : option CredentialAssertionResponse) (w : world I) :
  forallb isBeginEvent (Begin C f user w).2 = true
  ∧ forallb isFinishEvent (Finish C f user resp w).2 = true.
Proof.
  split.
  - change (post (Begin C f user) w (λ _ _ evs, forallb isBeginEvent evs = true)).
    unfold Begin. flow_steps; reflexivity.
  - change (post (Finish C f user resp) w
              (λ _ _ evs, forallb isFinishEvent evs = true)).
    unfold Finish. flow_steps; reflexivity.
Qed.

(** X6.  Every call [Begin] and [Finish] make to the identity is for the
    user of the call: devices are fetched without secrets, session data is
    read, stored and deleted under the fixed identifier "login" only, and
    the user handed to the library carries the name of the user. *)
Theorem Begin_Finish_about_user (f : LoginFlow) (user : string)
    (resp : option CredentialAssertionResponse) (w : world I) :
  forallb (about_user user) (Begin C f user w).2 = true
  ∧ forallb (about_user user) (Finish C f user resp w).2 = true.
Proof.
  split.
  - change (post (Begin C f user) w
              (λ _ _ evs, forallb (about_user user) evs = true)).
    unfold Begin.
    flow_steps; simpl; rewrite ?String.eqb_refl; reflexivity.
  - change (post (Finish C f user resp) w
              (λ _ _ evs, forallb (about_user user) evs = true)).
    unfold Finish.
    flow_steps; simpl; rewrite ?String.eqb_refl; reflexivity.
Qed.

Lemma Finish_failure_post (f : LoginFlow) (user : string)
    (resp : option CredentialAssertionResponse) (w : world I) :
  post (Finish C f user resp) w (λ r _ evs,
    ∀ ev e, ev ∈ evs → failure_of ev = Some e →
      r = Err e ∧ last evs = Some ev).
Proof.
  unfold Finish.
  flow_steps; simpl; intros ev' e' Hin Hf; in_cases Hin; subst ev';
    try discriminate Hf; injection Hf as <-; by split.
Qed.

Lemma Begin_failure_post (f : LoginFlow) (user : string) (w : world I) :
  post (Begin C f user) w (λ r _ evs,
    ∀ ev e, ev ∈ evs → failure_of ev = Some e →
      r = Err e ∧ last evs = Some ev).
Proof.
  unfold Begin.
  flow_steps; simpl; intros ev' e' Hin Hf; in_cases Hin; subst ev';
    try discriminate Hf; injection Hf as <-; by split.
Qed.

(** X7.  A call of [Finish] to the identity or the verifier that fails,
    other than the deletion of session data, ends [Finish]: the error it
    returned is the error of [Finish], and the call is the last thing
    [Finish] did. *)
Theorem Finish_failure_aborts (f : LoginFlow) (user : string)
    (resp : option CredentialAssertionResponse) (w w' : world I)
    (r : result loc) (evs : list event) (ev : event) (e : error) :
  Finish C f user resp w = (r, w', evs) →
  ev ∈ evs → failure_of ev = Some e →
  r = Err e ∧ last evs = Some ev.
Proof.
  intros Hrun.
  exact (post_run _ _ _ _ _ _ (Finish_failure_post f user resp w) Hrun ev e).
Qed.

(** X8.  A call of [Begin] to the identity or the library that fails ends
    [Begin] with the error of the call, and is the last thing [Begin] did:
    after a failed device lookup no user handle is created, and after a
    failed [BeginLogin] no session data is stored. *)
Theorem Begin_failure_aborts (f : LoginFlow) (user : string) (w w' : world I)
    (r : result CredentialAssertion) (evs : list event) (ev : event) (e : error) :
  Begin C f user w = (r, w', evs) →
  ev ∈ evs → failure_of ev = Some e →
  r = Err e ∧ last evs = Some ev.
Proof.
  intros Hrun.
  exact (post_run _ _ _ _ _ _ (Begin_failure_post f user w) Hrun ev e).
Qed.

Lemma Finish_success_post (f : LoginFlow) (user : string)
    (resp : CredentialAssertionResponse) (w : world I) :
  post (Finish C f user (Some resp)) w (λ r _ evs,
    ∀ dev, r = Ok dev →
      ∃ p devices i h web u sd c d',
        parseCredentialResponse C resp = Ok p
        ∧ GetMFADevices user false (ident w, mem w) = (Ok devices, (i, h))
        ∧ findDeviceByID h devices (protocol.RawID p) = Some dev
        ∧ EvValidateLogin web u sd p (Ok c) ∈ evs
        ∧ EvStoreDevice dev d' ∈ evs
        ∧ EvUpsertMFADevice user dev d' None ∈ evs
        ∧ counterOf d' = Some (wan.SignCount (wan.Authenticator_ c))
        ∧ types.LastUsed d' = clock w).
Proof.
  unfold Finish.
  flow_steps; cbn [app]; intros dev' Hr; try discriminate Hr;
    injection Hr as <-;
    eexists _, _, _, _, _, _, _, _, _;
    (split; [reflexivity|]); (split; [eassumption|]); (split; [eassumption|]);
    (split; [in_list|]); (split; [in_list|]);
    (split; [unfold heap_store; rewrite Pos.eqb_refl; in_list|]);
    split; reflexivity.
Qed.

(** X9.  A [Finish] that succeeds returns a device of the user: the first
    of the devices the identity listed whose identifier equals the raw
    identifier of the parsed response.  The verifier accepted the response,
    and the device was written and then persisted with the signature count
    the verifier reported and the time of the clock. *)
Theorem Finish_success (f : LoginFlow) (user : string)
    (resp : CredentialAssertionResponse) (w w' : world I) (dev : loc)
    (evs : list event) :
  Finish C f user (Some resp) w = (Ok dev, w', evs) →
  ∃ p devices i h web u sd c d',
    parseCredentialResponse C resp = Ok p
    ∧ GetMFADevices user false (ident w, mem w) = (Ok devices, (i, h))
    ∧ findDeviceByID h devices (protocol.RawID p) = Some dev
    ∧ EvValidateLogin web u sd p (Ok c) ∈ evs
    ∧ EvStoreDevice dev d' ∈ evs
    ∧ EvUpsertMFADevice user dev d' None ∈ evs
    ∧ counterOf d' = Some (wan.SignCount (wan.Authenticator_ c))
    ∧ types.LastUsed d' = clock w.
Proof.
  intros Hrun.
  exact (post_run _ _ _ _ _ _ (Finish_success_post f user resp w) Hrun dev eq_refl).
Qed.

Lemma Finish_clone_post (f : LoginFlow) (user : string)
    (resp : option CredentialAssertionResponse) (w : world I) :
  post (Finish C f user resp) w (λ r _ evs,
    ∀ web u sd p c, EvValidateLogin web u sd p (Ok c) ∈ evs →
      (wan.CloneWarning (wan.Authenticator_ c) = true ↔
       ∃ name, EvLog WarnLevel (CloneWarningDetected user name) ∈ evs)
      ∧ ((∃ dev d, EvStoreDevice dev d ∈ evs)
         ∨ r = Err (BadParameter "unexpected device type for webauthn: *types.MFADevice_Totp"))).
Proof.
  unfold Finish.
  flow_steps; simpl; intros web' u' sd' p' c' Hin; in_cases Hin;
    injection Hin as -> -> -> -> ->;
    (split;
     [ split;
       [ intros Hc; first [ congruence | eexists; in_list ]
       | intros [name Hlog]; in_cases Hlog; first [ eassumption | congruence ] ]
     | first [ by right | left; eexists _, _; in_list ] ]).
Qed.

(** X10.  The clone warning of the verifier is advice: when the verifier
    accepts a response, [Finish] logs a warning about the user exactly when
    the credential carries the clone warning, and goes on to update the
    device either way. *)
Theorem Finish_clone_warning (f : LoginFlow) (user : string)
    (resp : option CredentialAssertionResponse) (w w' : world I)
    (r : result loc) (evs : list event)
    (web : wan.WebAuthn) (u : webUser) (sd : wan.SessionData)
    (p : protocol.ParsedCredentialAssertionData) (c : wan.Credential) :
  Finish C f user resp w = (r, w', evs) →
  EvValidateLogin web u sd p (Ok c) ∈ evs →
  (wan.CloneWarning (wan.Authenticator_ c) = true ↔
   ∃ name, EvLog WarnLevel (CloneWarningDetected user name) ∈ evs)
  ∧ ((∃ dev d, EvStoreDevice dev d ∈ evs)
     ∨ r = Err (BadParameter "unexpected device type for webauthn: *types.MFADevice_Totp")).
Proof.
  intros Hrun.
  exact (post_run _ _ _ _ _ _ (Finish_clone_post f user resp w) Hrun web u sd p c).
Qed.

Lemma newWebUser_ids (user : string) (id : bytes) (ds : list types.MFADevice) :
  wan.ID <$> credentials (newWebUser user id true ds) = omap deviceID ds.
Proof.
  unfold newWebUser. cbn [credentials].
  induction ds as [|d ds IH]; [done|].
  cbn [omap list_omap]. unfold deviceToCredential at 1, deviceID at 1.
  destruct (types.Device d); cbn [fmap list_fmap wan.ID];
    [exact IH | f_equal; exact IH | f_equal; exact IH].
Qed.

Lemma Begin_success_post (f : LoginFlow) (user : string) (w : world I) :
  post (Begin C f user) w (λ r w' evs,
    ∀ a, r = Ok a →
      ∃ devices i1 h1 id i2 h2 web sd pb,
        GetMFADevices user false (ident w, mem w) = (Ok devices, (i1, h1))
        ∧ getOrCreateUserWebauthnID C user (i1, h1) = (Ok id, (i2, h2))
        ∧ newWebAuthn C (Webauthn f) (types.RPID (Webauthn f)) "" = Ok web
        ∧ BeginLogin C web (newWebUser user id true (h2 <$> devices))
            (match U2F f with
             | Some u2f =>
                 if decide (types.AppID u2f = "") then []
                 else [wan.WithAssertionExtensions
                         {[ AppIDExtension := types.AppID u2f ]}]
             | None => []
             end) (rng w)
          = (Ok (a, sd), rng w')
        ∧ sessionToPB C sd = Ok pb
        ∧ UpsertWebauthnSessionData user loginSessionID pb (i2, h2)
          = (None, (ident w', mem w'))
        ∧ clock w' = clock w
        ∧ evs = [EvGetMFADevices user false (Ok devices);
                 EvGetOrCreateUserWebauthnID user (Ok id);
                 EvBeginLogin web (newWebUser user id true (h2 <$> devices))
                   (match U2F f with
                    | Some u2f =>
                        if decide (types.AppID u2f = "") then []
                        else [wan.WithAssertionExtensions
                                {[ AppIDExtension := types.AppID u2f ]}]
                    | None => []
                    end)
                   (Ok (a, sd));
                 EvUpsertWebauthnSessionData user loginSessionID pb None]).
Proof.
  unfold Begin. rewrite loginOptions_spec.
  flow_steps; cbn [app]; intros a' Ha; try discriminate Ha;
    injection Ha as <-; cbn [ident mem clock rng] in *; subst;
    eexists _, _, _, _, _, _, _, _, _;
    (split; [eassumption|]); (split; [eassumption|]);
    (split; [first [reflexivity | eassumption]|]);
    (split; [eassumption|]);
    (split; [first [eassumption | reflexivity]|]);
    (split; [eassumption|]);
    (split; reflexivity).
Qed.

(** X11.  A [Begin] that succeeds made four calls, each on what the one
    before left: it fetched the devices of the user; resolved the user
    handle; asked [BeginLogin], on the object configured for the
    relying-party identifier and an empty origin, for the user built from
    the fetched devices as they are in the heap at that time, who carries
    the identifier of every U2F and Webauthn device among them and nothing
    else of them, with the App ID extension when the U2F configuration
    names an App ID; and stored the session data of that very call under
    the fixed identifier.  The assertion returned is the one of that call,
    and the world is the one the last call left. *)
Theorem Begin_success (f : LoginFlow) (user : string) (w w' : world I)
    (a : CredentialAssertion) (evs : list event) :
  Begin C f user w = (Ok a, w', evs) →
  ∃ devices i1 h1 id i2 h2 web sd pb,
    GetMFADevices user false (ident w, mem w) = (Ok devices, (i1, h1))
    ∧ getOrCreateUserWebauthnID C user (i1, h1) = (Ok id, (i2, h2))
    ∧ newWebAuthn C (Webauthn f) (types.RPID (Webauthn f)) "" = Ok web
    ∧ BeginLogin C web (newWebUser user id true (h2 <$> devices))
        (match U2F f with
         | Some u2f =>
             if decide (types.AppID u2f = "") then []
             else [wan.WithAssertionExtensions
                     {[ AppIDExtension := types.AppID u2f ]}]
         | None => []
         end) (rng w)
      = (Ok (a, sd), rng w')
    ∧ wan.ID <$> credentials (newWebUser user id true (h2 <$> devices))
      = omap deviceID (h2 <$> devices)
    ∧ sessionToPB C sd = Ok pb
    ∧ UpsertWebauthnSessionData user loginSessionID pb (i2, h2)
      = (None, (ident w', mem w'))
    ∧ clock w' = clock w
    ∧ evs = [EvGetMFADevices user false (Ok devices);
             EvGetOrCreateUserWebauthnID user (Ok id);
             EvBeginLogin web (newWebUser user id true (h2 <$> devices))
               (match U2F f with
                | Some u2f =>
                    if decide (types.AppID u2f = "") then []
                    else [wan.WithAssertionExtensions
                            {[ AppIDExtension := types.AppID u2f ]}]
                | None => []
                end)
               (Ok (a, sd));
             EvUpsertWebauthnSessionData user loginSessionID pb None].
Proof.
  intros Hrun.
  destruct (post_run _ _ _ _ _ _ (Begin_success_post f user w) Hrun a eq_refl)
    as (devices & i1 & h1 & id & i2 & h2 & web & sd & pb
        & Hd & Hid & Hweb & Hb & Hpb & Hup & Hclock & Hevs).
  exists devices, i1, h1, id, i2, h2, web, sd, pb.
  repeat (split; [assumption|]).
  split; [apply newWebUser_ids|].
  repeat (split; [assumption|]). assumption.
Qed.

(** X12.  A response that does not parse, because [json.Marshal] or the
    parser of the library refuses it, ends [Finish] with that error before
    anything is read: no event, and the world as it was. *)
Theorem Finish_parse_error (f : LoginFlow) (user : string)
    (resp : CredentialAssertionResponse) (e : error) (w : world I) :
  types.Disabled (Webauthn f) = false →
  user ≠ "" →
  (json_Marshal C (withExtensions resp None) = Err e
   ∨ ∃ body, json_Marshal C (withExtensions resp None) = Ok body
             ∧ ParseCredentialRequestResponseBody C body = Err e) →
  Finish C f user (Some resp) w = (Err e, w, []).
Proof.
  intros Hen Hu Hparse. apply String.eqb_neq in Hu.
  assert (Hp : parseCredentialResponse C resp = Err e).
  { unfold parseCredentialResponse, withExtensions in *.
    destruct Hparse as [-> | (body & -> & Hb)]; done. }
  unfold Finish, check, pure, bind, ret, fail. by rewrite Hen, Hu, Hp.
Qed.

End More.

(** X13.  Through the identity made by [WithDevices], [Finish] knows the
    devices of the slice and no others: a response by a credential that is
    not among them is refused as unknown, whatever the wrapped identity has
    registered for the user, and the wrapped identity is not asked. *)
Theorem Finish_WithDevices_unknown {I : Type} `{LoginIdentity I}
    (C : Collab (loginWithDevices I)) (f : LoginFlow) (user : string)
    (resp : CredentialAssertionResponse)
    (p : protocol.ParsedCredentialAssertionData)
    (identity : I) (devs : list loc) (h : heap) (now : Z) (g : N) :
  types.Disabled (Webauthn f) = false →
  user ≠ "" →
  parseCredentialResponse C resp = Ok p →
  validateOrigin C
    (protocol.Origin (protocol.CollectedClientData_ (protocol.pResponse p)))
    (types.RPID (Webauthn f)) = None →
  Forall (λ dev, ¬ matches (protocol.RawID p) (h dev)) devs →
  Finish C f user (Some resp) (World (WithDevices identity devs) h now g)
  = (Err (BadParameter
            ("unknown device credential: " ++
             fmt_q (base64.EncodeToString (protocol.RawID p)))),
     World (WithDevices identity devs) h now g,
     [EvGetMFADevices user false (Ok devs)]).
Proof.
  intros Hen Hu Hp Ho Hnone. apply String.eqb_neq in Hu.
  assert (Hf : findDeviceByID h devs (protocol.RawID p) = None).
  { apply findDeviceByID_None. intros dev Hin.
    by apply (proj1 (Forall_forall _ _) Hnone). }
  unfold Finish, check, pure, Identity_GetMFADevices, call, bind, ret, fail.
  rewrite Hen, Hu, Hp. simpl. rewrite Ho. simpl. rewrite Hf. reflexivity.
Qed.

(** ** More of login.go on the scenario *)

(** X7 on the scenario: alice never began a login, so she has no user
    handle; the lookup of the handle ends [Finish]. *)
Lemma Finish_failure_aborts_witness :
  (Finish Mem.collab Scenario.flow "alice" (Some Scenario.good)
     (Scenario.world0 false)).1.1
  = Err (NotFound "webauthn local auth not found")
  ∧ last (Finish Mem.collab Scenario.flow "alice" (Some Scenario.good)
            (Scenario.world0 false)).2
    = Some (EvGetWebauthnLocalAuth "alice"
              (Err (NotFound "webauthn local auth not found"))).
Proof.
  pose (run := Finish Mem.collab Scenario.flow "alice" (Some Scenario.good)
                 (Scenario.world0 false)).
  apply (Finish_failure_aborts Mem.collab Scenario.flow "alice"
           (Some Scenario.good) (Scenario.world0 false) run.1.2 run.1.1 run.2
           (EvGetWebauthnLocalAuth "alice"
              (Err (NotFound "webauthn local auth not found")))
           (NotFound "webauthn local auth not found") (run_eta run)).
  - vm_compute. in_list.
  - reflexivity.
Defined.

(** X8 on the scenario: with a library that refuses a user without
    credentials, [Begin] for carol ends at [BeginLogin] and stores no
    session data. *)
Lemma Begin_failure_aborts_witness :
  (Begin strictCollab Scenario.flow "carol" (Scenario.world0 false)).1.1
  = Err (BadParameter "Found no credentials for user")
  ∧ last (Begin strictCollab Scenario.flow "carol" (Scenario.world0 false)).2
    = Some (EvBeginLogin {| wan.RPID := "example.com"; wan.RPOrigin := "" |}
              (newWebUser "carol" (list_byte_of_string "carol") true [])
              [wan.WithAssertionExtensions
                 {[ AppIDExtension := "https://example.com" ]}]
              (Err (BadParameter "Found no credentials for user"))).
Proof.
  pose (run := Begin strictCollab Scenario.flow "carol" (Scenario.world0 false)).
  apply (Begin_failure_aborts strictCollab Scenario.flow "carol"
           (Scenario.world0 false) run.1.2 run.1.1 run.2
           (EvBeginLogin {| wan.RPID := "example.com"; wan.RPOrigin := "" |}
              (newWebUser "carol" (list_byte_of_string "carol") true [])
              [wan.WithAssertionExtensions
                 {[ AppIDExtension := "https://example.com" ]}]
              (Err (BadParameter "Found no credentials for user")))
           (BadParameter "Found no credentials for user") (run_eta run)).
  - vm_compute. in_list.
  - reflexivity.
Defined.

(** X9 on the scenario: alice answers the challenge with her key. *)
Lemma Finish_success_witness :
  ∃ p devices i h web u sd c d',
    parseCredentialResponse Mem.collab Scenario.good = Ok p
    ∧ GetMFADevices "alice" false
        (ident (Scenario.begun Scenario.flow "alice" false),
         mem (Scenario.begun Scenario.flow "alice" false))
      = (Ok devices, (i, h))
    ∧ findDeviceByID h devices (protocol.RawID p) = Some 1%positive
    ∧ EvValidateLogin web u sd p (Ok c)
      ∈ (Finish Mem.collab Scenario.flow "alice" (Some Scenario.good)
           (Scenario.begun Scenario.flow "alice" false)).2
    ∧ EvStoreDevice 1%positive d'
      ∈ (Finish Mem.collab Scenario.flow "alice" (Some Scenario.good)
           (Scenario.begun Scenario.flow "alice" false)).2
    ∧ EvUpsertMFADevice "alice" 1%positive d' None
      ∈ (Finish Mem.collab Scenario.flow "alice" (Some Scenario.good)
           (Scenario.begun Scenario.flow "alice" false)).2
    ∧ counterOf d' = Some (wan.SignCount (wan.Authenticator_ c))
    ∧ types.LastUsed d' = clock (Scenario.begun Scenario.flow "alice" false).
Proof.
  pose (w := Scenario.begun Scenario.flow "alice" false).
  pose (run := Finish Mem.collab Scenario.flow "alice" (Some Scenario.good) w).
  assert (Hrun : Finish Mem.collab Scenario.flow "alice" (Some Scenario.good) w
                 = (Ok 1%positive, run.1.2, run.2))
    by (vm_compute; reflexivity).
  exact (Finish_success Mem.collab Scenario.flow "alice" Scenario.good w
           run.1.2 1%positive run.2 Hrun).
Defined.

(** X10 on the scenario: the counter of the response is the one the device
    already has; the verifier sets the clone warning, [Finish] logs it and
    returns the device. *)
Lemma Finish_clone_warning_witness :
  (Finish Mem.collab Scenario.flow "alice" (Some Scenario2.stale)
     (Scenario.begun Scenario.flow "alice" false)).1.1 = Ok 1%positive
  ∧ (∃ name,
       EvLog WarnLevel (CloneWarningDetected "alice" name)
       ∈ (Finish Mem.collab Scenario.flow "alice" (Some Scenario2.stale)
            (Scenario.begun Scenario.flow "alice" false)).2).
Proof.
  split; [vm_compute; reflexivity|].
  pose (w := Scenario.begun Scenario.flow "alice" false).
  pose (run := Finish Mem.collab Scenario.flow "alice" (Some Scenario2.stale) w).
  assert (Hin : EvValidateLogin Scenario2.web Scenario2.alice Scenario2.session
                  Scenario2.staleParsed (Ok Scenario2.staleCredential) ∈ run.2)
    by (vm_compute; in_list).
  exact (proj1 (proj1
           (Finish_clone_warning Mem.collab Scenario.flow "alice"
              (Some Scenario2.stale) w run.1.2 run.1.1 run.2
              Scenario2.web Scenario2.alice Scenario2.session
              Scenario2.staleParsed Scenario2.staleCredential
              (run_eta run) Hin)) eq_refl).
Defined.

(** X11 on the scenario: the first [Begin] of alice, whose key is listed
    by its identifier. *)
Lemma Begin_success_witness :
  ∃ sd,
    (Begin Mem.collab Scenario.flow "alice" (Scenario.world0 false)).2 !! 2%nat
    = Some (EvBeginLogin {| wan.RPID := "example.com"; wan.RPOrigin := "" |}
              {| user_name := "alice";
                 webID := list_byte_of_string "alice";
                 credentials :=
                   [{| wan.ID := Scenario.C1;
                       wan.PublicKey := [];
                       wan.Authenticator_ :=
                         {| wan.AAGUID := [];
                            wan.SignCount := 0;
                            wan.CloneWarning := false |} |}] |}
              [wan.WithAssertionExtensions
                 {[ AppIDExtension := "https://example.com" ]}]
              (Ok sd)).
Proof.
  pose (w := Scenario.world0 false).
  pose (run := Begin Mem.collab Scenario.flow "alice" w).
  pose (a0 := {| protocol.Response :=
                   {| protocol.Challenge := [];
                      protocol.RelyingPartyID := "";
                      protocol.AllowedCredentials := [];
                      protocol.Extensions := ∅ |} |}).
  pose (val := λ r : result CredentialAssertion,
                 match r with Ok x => x | Err _ => a0 end).
  assert (Hrun : Begin Mem.collab Scenario.flow "alice" w
                 = (Ok (val run.1.1), run.1.2, run.2))
    by (vm_compute; reflexivity).
  destruct (Begin_success Mem.collab Scenario.flow "alice" w run.1.2
              (val run.1.1) run.2 Hrun)
    as (devices & i1 & h1 & id & i2 & h2 & web & sd & pb
        & Hd & Hid & Hweb & Hb & Hids & Hpb & Hup & Hclock & Hevs).
  exists (val run.1.1, sd).
  change (run.2 !! 2%nat = Some
            (EvBeginLogin {| wan.RPID := "example.com"; wan.RPOrigin := "" |}
               (newWebUser "alice" (list_byte_of_string "alice") true
                  [Scenario.aliceKey])
               [wan.WithAssertionExtensions
                  {[ AppIDExtension := "https://example.com" ]}]
               (Ok (val run.1.1, sd)))).
  injection Hd as <- <- <-. injection Hid as <- <- <-. injection Hweb as <-.
  rewrite Hevs. reflexivity.
Defined.

(** X12 on the scenario: a response with nothing after its identifier. *)
Lemma Finish_parse_error_witness :
  Finish Mem.collab Scenario.flow "alice" (Some Scenario2.truncated)
    (Scenario.begun Scenario.flow "alice" false)
  = (Err (BadParameter "Parse error for Assertion"),
     Scenario.begun Scenario.flow "alice" false, []).
Proof.
  apply (Finish_parse_error Mem.collab Scenario.flow "alice" Scenario2.truncated).
  - reflexivity.
  - discriminate.
  - right. exists [Byte.x02; Byte.x43; Byte.x31]. split; vm_compute; reflexivity.
Defined.

(** X13 on the scenario: alice's key is registered, but the identity made
    by [WithDevices] holds only the key of bob. *)
Lemma Finish_WithDevices_unknown_witness :
  Finish (withDevicesCollab Mem.collab) Scenario.flow "alice"
    (Some Scenario.good) Scenario2.wrapped
  = (Err (BadParameter ("unknown device credential: " ++ fmt_q "QzE")),
     Scenario2.wrapped,
     [EvGetMFADevices "alice" false (Ok [2%positive])]).
Proof.
  apply (Finish_WithDevices_unknown (withDevicesCollab Mem.collab) Scenario.flow
           "alice" Scenario.good Scenario.goodParsed).
  - reflexivity.
  - discriminate.
  - vm_compute. reflexivity.
  - vm_compute. reflexivity.
  - constructor; [|constructor]. vm_compute. intros [=].
Defined.
